(** * Dispatch engine of the two load balancers: a shallow embedding

    The repository holds two independent programs:

    - [load_balancer.py]: three backends, full-scan selection over a
      "busy until" estimate ([Server.__t_avail]) and a count of queued jobs;
    - [load_balancer_bar.py]: ten backends, sampled-pair selection over a
      running sum of reserved costs ([Server.current_cost]).

    [load_balancer.py] is Python 3 (it uses an f-string and indexes
    [bytes] to integers).  [load_balancer_bar.py] runs under Python 2
    and Python 3; the one line whose meaning differs is modelled for
    both.

    Conventions of the embedding.

    - Python integers are unbounded: [Z].
    - [time.time()] readings are inputs of the functions that read the
      clock.  They are rationals ([Q]); every finite float is one.  The
      rounding of float addition is not modelled.
    - [bytes] objects are [string]s: one [ascii] per byte.
    - An exception that leaves a function is the [Raise] outcome of that
      function; state changes made before the exception stay.
    - Sockets are modelled by what they are given and what they return:
      the reply of the backend is an input ([backend_io]); what is written
      to a socket is an output (a list of events).
    - One call is one sequential execution.  Interleavings of threads are
      not modelled; the reserve and release blocks are taken as atomic
      steps (they are mutex-protected in [load_balancer.py]). *)

From Stdlib Require Import ZArith QArith Lqa Lia Bool String Ascii.
From Stdlib Require Import DecimalString.
From stdpp Require Import base list relations.

Open Scope Z_scope.

(** ** Python values, exceptions and results *)

Module Py.

(** The exceptions that the two programs can raise.  [OSError] stands
    for itself and its subclasses raised by socket calls
    (ConnectionResetError, BrokenPipeError, TimeoutError). *)
Inductive exn : Set :=
| AssertionError
| IndexError
| ValueError
| AttributeError
| OSError.

Inductive result (A : Type) : Type :=
| Ok (a : A)
| Raise (e : exn).
Arguments Ok {A} a.
Arguments Raise {A} e.

Definition bind {A B : Type} (r : result A) (k : A -> result B) : result B :=
  match r with
  | Ok a => k a
  | Raise e => Raise e
  end.

Definition is_ok {A : Type} (r : result A) : bool :=
  match r with Ok _ => true | Raise _ => false end.

(** [bytes] *)
Definition bytes : Set := string.
Bind Scope string_scope with bytes.

(** [b[i]] on a bytes object, or [s[i]] on a str. *)
Definition index (b : bytes) (i : nat) : result ascii :=
  match String.get i b with
  | Some c => Ok c
  | None => Raise IndexError
  end.

(** [sock.recv(n)] when the peer has written [payload]: at most [n]
    bytes of it. *)
Definition recv (n : nat) (payload : bytes) : bytes :=
  String.substring 0 n payload.

Definition ord (c : ascii) : Z := Z.of_N (N_of_ascii c).

Definition is_digit (c : ascii) : bool :=
  (48 <=? ord c) && (ord c <=? 57).

(** [int(c)] for a one-character string [c] whose code is below 256:
    the decimal digits are the only such characters [int] accepts. *)
Definition int_of_chr (c : ascii) : result Z :=
  if is_digit c then Ok (ord c - 48) else Raise ValueError.

(** [str(n)] for an integer [n]. *)
Definition str_of_int (n : Z) : string :=
  NilZero.string_of_int (Z.to_int n).

(** [x < y] on numbers. *)
Definition Qltb (x y : Q) : bool := negb (Qle_bool y x).

(** What the socket of a backend does during one forward:
    [send] raises, or [send] returns and [recv] raises, or [recv]
    returns [res] (the empty string when the peer has closed).  Neither
    program sets a timeout on a socket; a [recv] that never returns is
    not an outcome: the call then does not end, between its reserve and
    its release. *)
Inductive backend_io : Set :=
| SendRaises
| RecvRaises
| RecvReturns (res : bytes).

(** What a handler does to the client connection. *)
Inductive client_event : Set :=
| ClientSend (data : bytes)
| ClientClose.

(** The two kinds of backend: ["V"] (video) and ["M"] (music).  Both
    constructors of [Server] reject any other value. *)
Inductive server_kind : Set := KindV | KindM.

End Py.

Import Py.

#[global] Instance result_bind : MBind result :=
  fun A B (k : A -> result B) (r : result A) => Py.bind r k.

(** ** load_balancer.py *)

Module load_balancer.

Module Job.
Record t : Set := Build { kind : ascii; cost : Z }.
End Job.

Module Server.

Record t : Set := Build {
  queued_jobs : Z;      (* Amount of jobs queued on the server *)
  t_avail : Q;          (* Point in time where the server will be available *)
  kind : server_kind    (* Server kind: "V" for video, "M" for music *)
}.

(** [Server.__init__] at clock reading [now]. *)
Definition init (now : Q) (k : server_kind) : t :=
  {| queued_jobs := 0; t_avail := now; kind := k |}.

(** [__get_tbusy]: how much longer the server will be busy. *)
Definition get_tbusy (now : Q) (self : t) : Q :=
  if queued_jobs self =? 0 then 0%Q
  else (t_avail self - now)%Q.

(** [__get_job_cost] *)
Definition get_job_cost (self : t) (job : Job.t) : Z :=
  match kind self with
  | KindV =>
      if (Job.kind job =? "V")%char || (Job.kind job =? "P")%char
      then Job.cost job
      else Job.cost job * 2
  | KindM =>
      if (Job.kind job =? "M")%char then Job.cost job
      else if (Job.kind job =? "P")%char then Job.cost job * 2
      else Job.cost job * 3
  end.

(** [get_cost]: the total cost of this server for [job]. *)
Definition get_cost (now : Q) (self : t) (job : Job.t) : Q :=
  (get_tbusy now self + inject_Z (get_job_cost self job))%Q.

(** First locked block of [send_and_recv] (lines 57-62). *)
Definition reserve (now : Q) (cost : Q) (self : t) : t :=
  let t0 := if queued_jobs self =? 0 then now else t_avail self in
  {| queued_jobs := queued_jobs self + 1;
     t_avail := (t0 + cost)%Q;
     kind := kind self |}.

(** Second locked block of [send_and_recv] (lines 68-72). *)
Definition release (now : Q) (self : t) : t :=
  let q := queued_jobs self - 1 in
  {| queued_jobs := q;
     t_avail := if q =? 0 then now else t_avail self;
     kind := kind self |}.

(** [send_and_recv(msg, cost)].  [now1] and [now2] are the clock
    readings of the two locked blocks.  The result is what the call
    returns or raises, the server afterwards, and what was written
    to the socket of the backend. *)
Definition send_and_recv (now1 now2 : Q) (io : backend_io)
    (msg : bytes) (cost : Q) (self : t)
  : result bytes * t * list bytes :=
  let self1 := reserve now1 cost self in
  match io with
  | SendRaises => (Raise OSError, self1, [])
  | RecvRaises => (Raise OSError, self1, [msg])
  | RecvReturns res =>
      if (res =? "")%string
      then (Raise AssertionError, self1, [msg])       (* assert(res) *)
      else (Ok res, release now2 self1, [msg])
  end.

End Server.

(** *** class LoadBalancer *)

(** [Job(chr(msg[0]), int(chr(msg[1])))], line 109. *)
Definition parse_job (msg : bytes) : result Job.t :=
  k ← index msg 0;
  d ← index msg 1;
  n ← int_of_chr d;
  Ok (Job.Build k n).

(** The initial value of [best_cost]: [2 ** 31]. *)
Definition sentinel : Q := inject_Z (2 ^ 31).

(** The loop of [__send_to_servers] (lines 112-116) from position [i]
    of the pool on.  [best_server] is the position of the chosen
    server in [self.__servers] (the loop keeps a reference to the
    object, not a copy).  [clock i] is the clock reading at which the
    server at position [i] is asked for its cost. *)
Fixpoint scan (clock : nat -> Q) (j : Job.t) (i : nat)
    (servers : list Server.t) (best_server : option nat) (best_cost : Q)
  : option nat * Q :=
  match servers with
  | [] => (best_server, best_cost)
  | s :: rest =>
      let curr := Server.get_cost (clock i) s j in
      if Qltb curr best_cost
      then scan clock j (S i) rest (Some i) curr
      else scan clock j (S i) rest best_server best_cost
  end.

(** Lines 110-116: the selection. *)
Definition select (clock : nat -> Q) (j : Job.t) (servers : list Server.t)
  : option nat * Q :=
  scan clock j 0 servers None sentinel.

(** [msg.encode('ASCII')] inside the log line 119.  [msg] is the
    [bytes] object returned by [recv]; [bytes] has no attribute
    [encode], so evaluating the expression raises. *)
Definition bytes_encode (msg : bytes) : result bytes :=
  Raise AttributeError.

(** Line 120: [best_server.send_and_recv(msg, best_cost)]. *)
Definition forward (now1 now2 : Q) (io : backend_io) (msg : bytes)
    (servers : list Server.t) (best_server : nat) (best_cost : Q)
  : result bytes * list Server.t * list bytes :=
  match servers !! best_server with
  | None => (Raise IndexError, servers, [])
  | Some s =>
      let '(r, s', sent) := Server.send_and_recv now1 now2 io msg best_cost s in
      (r, <[best_server := s']> servers, sent)
  end.

(** [__send_to_servers(msg, client_addr)].  The result is what the call
    returns or raises, the pool afterwards, and what was written to
    backend sockets. *)
Definition send_to_servers (clock : nat -> Q) (now1 now2 : Q)
    (io : backend_io) (msg : bytes) (servers : list Server.t)
  : result bytes * list Server.t * list bytes :=
  match parse_job msg with
  | Raise e => (Raise e, servers, [])
  | Ok j =>
      match select clock j servers with
      | (None, _) => (Raise AssertionError, servers, [])
      | (Some best_server, best_cost) =>
          match bytes_encode msg with
          | Raise e => (Raise e, servers, [])
          | Ok _ => forward now1 now2 io msg servers best_server best_cost
          end
      end
  end.

(** [__run_client(client_sock)] when the client has written [payload].
    The last component is what the handler does to the client socket. *)
Definition run_client (clock : nat -> Q) (now1 now2 : Q)
    (io : backend_io) (payload : bytes) (servers : list Server.t)
  : result unit * list Server.t * list bytes * list client_event :=
  let data := recv 2 payload in
  if (data =? "")%string
  then (Raise AssertionError, servers, [], [])            (* assert(data) *)
  else
    let '(r, servers', sent) := send_to_servers clock now1 now2 io data servers in
    match r with
    | Ok res => (Ok tt, servers', sent, [ClientSend res; ClientClose])
    | Raise e => (Raise e, servers', sent, [])
    end.

(** The pool of [LoadBalancer.__init__]: [s1], [s2] video, [s3] music. *)
Definition initial_servers (now : Q) : list Server.t :=
  [Server.init now KindV; Server.init now KindV; Server.init now KindM].

End load_balancer.

(** ** load_balancer_bar.py *)

Module load_balancer_bar.

(** The file names no interpreter.  Indexing the result of [recv]
    gives a one-character [str] under Python 2 and an [int] under
    Python 3; [__handle_request] is modelled for both. *)
Inductive py_version : Set := Python2 | Python3.

(** The values [request_type] can hold. *)
Inductive value : Set :=
| Int (n : Z)
| Str (s : string).

(** [v == s] for a string literal [s]. *)
Definition eq_str (v : value) (s : string) : bool :=
  match v with
  | Str s' => (s' =? s)%string
  | Int _ => false
  end.

(** [str(v)] *)
Definition str (v : value) : string :=
  match v with
  | Str s => s
  | Int n => str_of_int n
  end.

Module Server.

Record t : Set := Build {
  type : server_kind;     (* the type of the server *)
  current_cost : Z        (* the current workload on the server *)
}.

(** [Server.__init__] for a server type that passes the check. *)
Definition init (server_type : server_kind) : t :=
  {| type := server_type; current_cost := 0 |}.

(** [server_cost(request_type, request_length, total)] *)
Definition server_cost (self : t) (request_type : value)
    (request_length : Z) (total : bool) : result Z :=
  if negb (eq_str request_type "V" || eq_str request_type "P"
           || eq_str request_type "M")
  then Raise ValueError
  else
    let type_cost :=
      match type self with
      | KindV =>
          if eq_str request_type "V" || eq_str request_type "P"
          then 1 else 2
      | KindM =>
          if eq_str request_type "M" then 1
          else if eq_str request_type "P" then 2
          else 3
      end in
    if total
    then Ok (current_cost self + type_cost * request_length)
    else Ok (type_cost * request_length).

(** [self.current_cost += request_cost], line 161. *)
Definition reserve (request_cost : Z) (self : t) : t :=
  {| type := type self; current_cost := current_cost self + request_cost |}.

(** [self.current_cost -= request_cost], line 164. *)
Definition release (request_cost : Z) (self : t) : t :=
  {| type := type self; current_cost := current_cost self - request_cost |}.

(** ['{}{}'.format(request_type, request_length).encode()], line 162.
    The request type has passed the check of [server_cost] when this
    is evaluated, so the text is ASCII and [encode] keeps it. *)
Definition encode (request_type : value) (request_length : Z) : bytes :=
  (str request_type ++ str_of_int request_length)%string.

(** [request(request_type, request_length)] *)
Definition request (io : backend_io) (self : t) (request_type : value)
    (request_length : Z) : result bytes * t * list bytes :=
  match server_cost self request_type request_length false with
  | Raise e => (Raise e, self, [])
  | Ok request_cost =>
      let self1 := reserve request_cost self in
      let msg := encode request_type request_length in
      match io with
      | SendRaises => (Raise OSError, self1, [])
      | RecvRaises => (Raise OSError, self1, [msg])
      | RecvReturns response =>
          (Ok response, release request_cost self1, [msg])
      end
  end.

End Server.

(** [sample(range(0, n), 2)]: raises for a population of fewer than
    two; otherwise the two positions drawn, [draw], are an input. *)
Definition sample (n : nat) (draw : nat * nat) : result (nat * nat) :=
  if (n <? 2)%nat then Raise ValueError else Ok draw.

(** What the library guarantees of the two positions drawn from
    [range(0, n)]: they are in range and distinct. *)
Definition valid_draw (n : nat) (draw : nat * nat) : Prop :=
  (draw.1 < n)%nat /\ (draw.2 < n)%nat /\ draw.1 <> draw.2.

(** [self.servers[i]] *)
Definition servers_index (servers : list Server.t) (i : nat)
  : result Server.t :=
  match servers !! i with
  | Some s => Ok s
  | None => Raise IndexError
  end.

(** [__get_server(request_type, request_length)]: the position in
    [self.servers] of the server returned. *)
Definition get_server (draw : nat * nat) (servers : list Server.t)
    (request_type : value) (request_length : Z) : result nat :=
  d ← sample (length servers) draw;
  server_1 ← servers_index servers d.1;
  server_2 ← servers_index servers d.2;
  c1 ← Server.server_cost server_1 request_type request_length true;
  c2 ← Server.server_cost server_2 request_type request_length true;
  if c1 <? c2 then Ok d.1 else Ok d.2.

(** Line 66: [request[0], int(request[1])]. *)
Definition decode (v : py_version) (request : bytes) : result (value * Z) :=
  c0 ← index request 0;
  c1 ← index request 1;
  match v with
  | Python2 => n ← int_of_chr c1; Ok (Str (String c0 ""), n)
  | Python3 => Ok (Int (ord c0), ord c1)
  end.

(** [__handle_request(conn)] when the client has written [payload].
    [recv] never returns [None], so the first branch is never taken. *)
Definition handle_request (v : py_version) (draw : nat * nat)
    (io : backend_io) (payload : bytes) (servers : list Server.t)
  : result unit * list Server.t * list bytes * list client_event :=
  let request := recv 1024 payload in
  match decode v request with
  | Raise e => (Raise e, servers, [], [])
  | Ok (request_type, request_length) =>
      match get_server draw servers request_type request_length with
      | Raise e => (Raise e, servers, [], [])
      | Ok i =>
          match servers !! i with
          | None => (Raise IndexError, servers, [], [])
          | Some server =>
              let '(r, server', sent) :=
                Server.request io server request_type request_length in
              match r with
              | Ok response =>
                  (Ok tt, <[i := server']> servers, sent,
                   [ClientSend response; ClientClose])
              | Raise e => (Raise e, <[i := server']> servers, sent, [])
              end
          end
      end
  end.

End load_balancer_bar.

(** * Vocabulary of the properties *)

Module LB := load_balancer.
Module Bar := load_balancer_bar.

(** The total the selection loop of [load_balancer.py] computes for the
    server [s] at position [i] of the pool: residual busy time at the
    reading [clock i], plus the cost of the job on [s]. *)
Definition total_at (clock : nat -> Q) (j : LB.Job.t) (i : nat)
    (s : LB.Server.t) : Q :=
  LB.Server.get_cost (clock i) s j.

(** The forward fails: [send] raises or [recv] raises. *)
Definition io_raises (io : backend_io) : Prop :=
  io = SendRaises \/ io = RecvRaises.

(** A request type that passes the check of [server_cost]. *)
Definition known_type (request_type : Bar.value) : bool :=
  Bar.eq_str request_type "V" || Bar.eq_str request_type "P"
  || Bar.eq_str request_type "M".

(** Histories of one backend of [load_balancer_bar.py].  A configuration
    is the server together with the [request_cost] of every call of
    [request] that has run line 161 and not yet line 164: the jobs
    reserved and not yet released.  A call adds its cost when it
    reserves and takes it away when it releases; calls may release in
    any order.  Request lengths are not negative (they are decoded from
    one byte). *)
Inductive bar_step : Bar.Server.t * list Z -> Bar.Server.t * list Z -> Prop :=
| bar_reserve s outstanding request_type request_length request_cost :
    0 <= request_length ->
    Bar.Server.server_cost s request_type request_length false
    = Ok request_cost ->
    bar_step (s, outstanding)
             (Bar.Server.reserve request_cost s, request_cost :: outstanding)
| bar_release s before request_cost after :
    bar_step (s, before ++ request_cost :: after)
             (Bar.Server.release request_cost s, before ++ after).

(** Histories of one backend of [load_balancer.py].  A configuration is
    the server together with the number of calls of [send_and_recv] that
    are between their two locked blocks. *)
Inductive lb_step : LB.Server.t * nat -> LB.Server.t * nat -> Prop :=
| lb_reserve s outstanding now cost :
    lb_step (s, outstanding) (LB.Server.reserve now cost s, S outstanding)
| lb_release s outstanding now :
    lb_step (s, S outstanding) (LB.Server.release now s, outstanding).


(** The job kinds of the cost table: video, priority, music. *)
Definition known_kind (c : ascii) : bool :=
  ((c =? "V") || (c =? "P") || (c =? "M"))%char.

Fixpoint all_digits (s : string) : bool :=
  match s with
  | EmptyString => true
  | String c rest => is_digit c && all_digits rest
  end.

(** The value of a string of decimal digits, most significant first. *)
Fixpoint decimal_from (acc : Z) (s : string) : Z :=
  match s with
  | EmptyString => acc
  | String c rest => decimal_from (10 * acc + (ord c - 48)) rest
  end.

Definition decimal_value (s : string) : Z := decimal_from 0 s.

(** The request format in the words of the specification: one byte of
    job-kind tag, the remaining bytes a decimal size. *)
Definition spec_decodable (payload : bytes) : bool :=
  match payload with
  | String k (String d rest) => known_kind k && is_digit d && all_digits rest
  | _ => false
  end.

(** What the two programs look at: the first byte is a known kind tag
    and the second is a decimal digit. *)
Definition head_decodable (payload : bytes) : bool :=
  match payload with
  | String k (String d _) => known_kind k && is_digit d
  | _ => false
  end.

(** A pool of three busy backends whose totals all reach the sentinel. *)
Definition saturated_pool : list LB.Server.t :=
  [LB.Server.Build 1 (inject_Z (2 ^ 31)) KindV;
   LB.Server.Build 1 (inject_Z (2 ^ 31)) KindV;
   LB.Server.Build 1 (inject_Z (2 ^ 31)) KindM].

(** Three busy backends, each with one queued job that ends at 109. *)
Definition busy_pool : list LB.Server.t :=
  [LB.Server.Build 1 109 KindV;
   LB.Server.Build 1 109 KindV;
   LB.Server.Build 1 109 KindM].

(** * Start-up and serving

    The parts of the two programs around the dispatch engine: how the
    pools are built, and what a run of connections does to them. *)

Module load_balancer_startup.

(** [Server.__init__(kind, address)] of [load_balancer.py], read at the
    clock reading [now]: the assertion on [kind], the fields, then the
    connection to the backend, which [connects] or raises. *)
Definition Server_new (now : Q) (kind : string) (connects : bool)
  : result LB.Server.t :=
  if (kind =? "V")%string then
    if connects then Ok (LB.Server.init now KindV) else Raise OSError
  else if (kind =? "M")%string then
    if connects then Ok (LB.Server.init now KindM) else Raise OSError
  else Raise AssertionError.


End load_balancer_startup.

Module load_balancer_bar_startup.

(** [Server.__init__(host, port, server_type)] of
    [load_balancer_bar.py]: the check of the type, the fields, then the
    connection to the backend, which [connects] or raises. *)
Definition Server_new (server_type : Bar.value) (connects : bool)
  : result Bar.Server.t :=
  if negb (Bar.eq_str server_type "V" || Bar.eq_str server_type "M")
  then Raise ValueError
  else
    let self := Bar.Server.init
                  (if Bar.eq_str server_type "V" then KindV else KindM) in
    if connects then Ok self else Raise OSError.

(** The first loop of [run(servers)] (lines 42-44): every entry of the
    configuration is turned into a server and appended to
    [self.servers].  The result is what the loop raises, if anything,
    and [self.servers] afterwards. *)
Fixpoint run_connect (servers : list (Bar.value * bool))
    (self_servers : list Bar.Server.t) : result unit * list Bar.Server.t :=
  match servers with
  | [] => (Ok tt, self_servers)
  | (server_type, connects) :: rest =>
      match Server_new server_type connects with
      | Raise e => (Raise e, self_servers)
      | Ok server => run_connect rest (self_servers ++ [server])
      end
  end.

(** The server types of the configuration under [__main__]. *)
Definition main_servers : list Bar.value :=
  [Bar.Str "V"; Bar.Str "V"; Bar.Str "V"; Bar.Str "V"; Bar.Str "V";
   Bar.Str "V"; Bar.Str "M"; Bar.Str "M"; Bar.Str "M"; Bar.Str "M"].

(** What one accepted connection brings: the two positions [sample]
    draws, what the backend does, and what the client has written. *)
Definition connection : Set := (nat * nat) * backend_io * bytes.

(** The handlers of successive connections, each run to its end before
    the next one starts: one schedule of the threads that the accept
    loop of [run] starts (lines 50-52).  The result is the pool after the
    last handler. *)
Fixpoint serve (v : Bar.py_version) (connections : list connection)
    (servers : list Bar.Server.t) : list Bar.Server.t :=
  match connections with
  | [] => servers
  | (draw, io, payload) :: rest =>
      serve v rest (Bar.handle_request v draw io payload servers).1.1.2
  end.

End load_balancer_bar_startup.

Module LBS := load_balancer_startup.
Module BarS := load_balancer_bar_startup.

(** The job kinds a video server treats as its own. *)
Definition video_kind (k : ascii) : bool := ((k =? "V") || (k =? "P"))%char.

(** [current_cost] plus the cost of the request on [s], the quantity
    [__get_server] compares; 0 stands for a request type that is
    rejected. *)
Definition bar_total (s : Bar.Server.t) (request_type : Bar.value)
    (request_length : Z) : Z :=
  match Bar.Server.server_cost s request_type request_length true with
  | Ok c => c
  | Raise _ => 0
  end.

(** A server type that passes the check of [Server.__init__] in
    [load_balancer_bar.py], and the kind of server it stands for. *)
Definition server_type_ok (server_type : Bar.value) : bool :=
  Bar.eq_str server_type "V" || Bar.eq_str server_type "M".

Definition kind_of (server_type : Bar.value) : server_kind :=
  if Bar.eq_str server_type "V" then KindV else KindM.

(** An entry of the configuration from which [run] builds a server. *)
Definition entry_ok (entry : Bar.value * bool) : bool :=
  server_type_ok entry.1 && entry.2.

(** * Properties *)

(** ** Comparisons on clock readings *)

Lemma Qltb_lt (x y : Q) : Qltb x y = true <-> (x < y)%Q.
Proof.
  unfold Qltb. rewrite negb_true_iff. split.
  - intros H. apply Qnot_le_lt. intros Hle.
    apply Qle_bool_iff in Hle. congruence.
  - intros H. destruct (Qle_bool y x) eqn:E; [|reflexivity].
    apply Qle_bool_iff in E. lra.
Qed.

Lemma Qltb_ge (x y : Q) : Qltb x y = false <-> (y <= x)%Q.
Proof.
  unfold Qltb. rewrite negb_false_iff. apply Qle_bool_iff.
Qed.

(** ** Full-scan selection ([load_balancer.py]) *)

Section Scan.

Variable clock : nat -> Q.
Variable j : LB.Job.t.

(** What the loop has established when it ends: the final [best_cost]
    bounds from below the start value and every total seen; and either
    nothing was accepted, or the accepted server is the first one that
    reaches the final [best_cost]. *)
Lemma scan_spec (servers : list LB.Server.t) :
  forall (i : nat) (b : option nat) (c : Q) (b' : option nat) (c' : Q),
    LB.scan clock j i servers b c = (b', c') ->
    (c' <= c)%Q /\
    (forall k s, servers !! k = Some s -> (c' <= total_at clock j (i + k) s)%Q) /\
    ((b' = b /\ c' = c) \/
     (exists k s,
         servers !! k = Some s /\ b' = Some (i + k)%nat /\
         c' = total_at clock j (i + k) s /\ (c' < c)%Q /\
         forall k' s', (k' < k)%nat -> servers !! k' = Some s' ->
                       (c' < total_at clock j (i + k') s')%Q)).
Proof.
  induction servers as [|s rest IH]; intros i b c b' c' Hscan; simpl in Hscan.
  - injection Hscan as <- <-. split; [lra|]. split; [|left; auto].
    intros k s Hk. rewrite lookup_nil in Hk. discriminate.
  - fold (total_at clock j i s) in Hscan.
    destruct (Qltb (total_at clock j i s) c) eqn:Hlt.
    + apply Qltb_lt in Hlt.
      destruct (IH _ _ _ _ _ Hscan) as (Hle & Hall & Hsel).
      split; [lra|]. split.
      * intros [|k] s0 Hk; simpl in Hk.
        -- injection Hk as <-. rewrite Nat.add_0_r. exact Hle.
        -- rewrite Nat.add_succ_r. apply (Hall k s0 Hk).
      * right. destruct Hsel as [[-> ->] | (k & s0 & Hk & -> & -> & Hlt' & Hfirst)].
        -- exists 0%nat, s. rewrite Nat.add_0_r.
           repeat split; auto. intros k' s' Hk'. lia.
        -- exists (S k), s0. rewrite Nat.add_succ_r.
           repeat split; auto; [lra|].
           intros [|k'] s' Hk' Hs'; simpl in Hs'.
           ++ injection Hs' as <-. rewrite Nat.add_0_r. exact Hlt'.
           ++ rewrite Nat.add_succ_r. apply (Hfirst k' s'); [lia|exact Hs'].
    + apply Qltb_ge in Hlt.
      destruct (IH _ _ _ _ _ Hscan) as (Hle & Hall & Hsel).
      split; [exact Hle|]. split.
      * intros [|k] s0 Hk; simpl in Hk.
        -- injection Hk as <-. rewrite Nat.add_0_r. lra.
        -- rewrite Nat.add_succ_r. apply (Hall k s0 Hk).
      * destruct Hsel as [[-> ->] | (k & s0 & Hk & -> & -> & Hlt' & Hfirst)].
        -- left; auto.
        -- right. exists (S k), s0. rewrite Nat.add_succ_r.
           repeat split; auto.
           intros [|k'] s' Hk' Hs'; simpl in Hs'.
           ++ injection Hs' as <-. rewrite Nat.add_0_r. lra.
           ++ rewrite Nat.add_succ_r. apply (Hfirst k' s'); [lia|exact Hs'].
Qed.

(** The loop accepts nothing exactly when no total is below the start
    value. *)
Lemma scan_none (servers : list LB.Server.t) (i : nat) (c : Q) :
  (forall k s, servers !! k = Some s -> (c <= total_at clock j (i + k) s)%Q) ->
  LB.scan clock j i servers None c = (None, c).
Proof.
  revert i. induction servers as [|s rest IH]; intros i Hall; simpl.
  - reflexivity.
  - fold (total_at clock j i s).
    assert (Hs : (c <= total_at clock j i s)%Q).
    { specialize (Hall 0%nat s eq_refl). rewrite Nat.add_0_r in Hall. exact Hall. }
    apply Qltb_ge in Hs. rewrite Hs. apply IH.
    intros k s0 Hk. specialize (Hall (S k) s0 Hk).
    rewrite Nat.add_succ_r in Hall. exact Hall.
Qed.

End Scan.

(** ** C2: the cost table *)

(** C2.  For every size [S], the cost of a job is the multiplier of the
    rule table times [S], in both programs: on a video backend, video and
    priority jobs cost [S] and music jobs [2 * S]; on a music backend,
    music jobs cost [S], priority jobs [2 * S] and video jobs [3 * S].
    For an idle video backend and an idle music backend, a video job of
    size 10 costs 10 and 30. *)
Theorem cost_table (S : Z) :
  (forall q t,
      let v := LB.Server.Build q t KindV in
      let m := LB.Server.Build q t KindM in
      LB.Server.get_job_cost v (LB.Job.Build "V" S) = 1 * S /\
      LB.Server.get_job_cost v (LB.Job.Build "P" S) = 1 * S /\
      LB.Server.get_job_cost v (LB.Job.Build "M" S) = 2 * S /\
      LB.Server.get_job_cost m (LB.Job.Build "M" S) = 1 * S /\
      LB.Server.get_job_cost m (LB.Job.Build "P" S) = 2 * S /\
      LB.Server.get_job_cost m (LB.Job.Build "V" S) = 3 * S) /\
  (forall c,
      let v := Bar.Server.Build KindV c in
      let m := Bar.Server.Build KindM c in
      Bar.Server.server_cost v (Bar.Str "V") S false = Ok (1 * S) /\
      Bar.Server.server_cost v (Bar.Str "P") S false = Ok (1 * S) /\
      Bar.Server.server_cost v (Bar.Str "M") S false = Ok (2 * S) /\
      Bar.Server.server_cost m (Bar.Str "M") S false = Ok (1 * S) /\
      Bar.Server.server_cost m (Bar.Str "P") S false = Ok (2 * S) /\
      Bar.Server.server_cost m (Bar.Str "V") S false = Ok (3 * S)) /\
  (forall now,
      LB.Server.get_cost now (LB.Server.init now KindV) (LB.Job.Build "V" 10)
      = inject_Z 10 /\
      LB.Server.get_cost now (LB.Server.init now KindM) (LB.Job.Build "V" 10)
      = inject_Z 30) /\
  Bar.Server.server_cost (Bar.Server.init KindV) (Bar.Str "V") 10 true = Ok 10 /\
  Bar.Server.server_cost (Bar.Server.init KindM) (Bar.Str "V") 10 true = Ok 30.
Proof.
  split; [|split; [|split]].
  - intros q t v m. unfold LB.Server.get_job_cost; simpl.
    repeat split; lia.
  - intros c v m. unfold Bar.Server.server_cost; simpl.
    repeat split; f_equal; lia.
  - intros now. split; reflexivity.
  - split; reflexivity.
Qed.

(** ** C10 and C3: what the selection returns *)

(** C10.  The selection starts from the sentinel [2 ** 31] and accepts
    strictly smaller totals only: it returns a backend if and only if the
    total of some backend (residual busy time plus job cost) is strictly
    below [2 ** 31]; when every total is at least [2 ** 31], the
    assertion that a server was chosen fails, whatever the pool. *)
Theorem select_sentinel_bound (clock : nat -> Q) (j : LB.Job.t)
    (servers : list LB.Server.t) :
  ((exists i, (LB.select clock j servers).1 = Some i) <->
   (exists k s, servers !! k = Some s /\
                (total_at clock j k s < LB.sentinel)%Q)) /\
  (forall now1 now2 io msg,
      LB.parse_job msg = Ok j ->
      (forall k s, servers !! k = Some s ->
                   (LB.sentinel <= total_at clock j k s)%Q) ->
      LB.send_to_servers clock now1 now2 io msg servers
      = (Raise AssertionError, servers, [])).
Proof.
  split; [split|].
  - intros [i Hi]. unfold LB.select in Hi.
    destruct (LB.scan clock j 0 servers None LB.sentinel) as [b' c'] eqn:Hscan.
    simpl in Hi. subst b'.
    destruct (scan_spec clock j servers _ _ _ _ _ Hscan)
      as (_ & _ & [[Hb _] | (k & s & Hk & _ & -> & Hlt & _)]).
    + discriminate.
    + exists k, s. split; [exact Hk|exact Hlt].
  - intros (k & s & Hk & Hlt). unfold LB.select.
    destruct (LB.scan clock j 0 servers None LB.sentinel) as [b' c'] eqn:Hscan.
    destruct (scan_spec clock j servers _ _ _ _ _ Hscan)
      as (_ & Hall & [[Hb Hc] | (k0 & s0 & _ & -> & _)]).
    + subst c'. specialize (Hall k s Hk). simpl in Hall. lra.
    + eexists. reflexivity.
  - intros now1 now2 io msg Hparse Hall.
    unfold LB.send_to_servers, LB.select. rewrite Hparse.
    rewrite (scan_none clock j servers 0 LB.sentinel); [reflexivity|].
    intros k s Hk. simpl. apply Hall, Hk.
Qed.

Lemma select_sentinel_bound_witness :
  LB.send_to_servers (fun _ => 0%Q) 0 0 (RecvReturns "ok") "V1" saturated_pool
  = (Raise AssertionError, saturated_pool, []).
Proof.
  apply (proj2 (select_sentinel_bound (fun _ => 0%Q) (LB.Job.Build "V" 1)
                  saturated_pool)).
  - reflexivity.
  - intros [|[|[|k]]] s Hk; simpl in Hk; try discriminate;
      injection Hk as <-; vm_compute; discriminate.
Defined.




(** ** C1, C4 and C5: reserve, forward, release *)

(** The first locked block as a whole: one more queued job; the
    baseline is the clock reading when no job was queued, the old
    [t_avail] otherwise; [t_avail] is the baseline plus the [cost]
    argument. *)
Lemma reserve_spec (now cost : Q) (s : LB.Server.t) :
  LB.Server.queued_jobs (LB.Server.reserve now cost s)
  = LB.Server.queued_jobs s + 1 /\
  LB.Server.t_avail (LB.Server.reserve now cost s)
  = ((if LB.Server.queued_jobs s =? 0 then now else LB.Server.t_avail s)
     + cost)%Q /\
  LB.Server.kind (LB.Server.reserve now cost s) = LB.Server.kind s.
Proof. repeat split. Qed.

(** The [cost] argument at the only call site (line 120) is the
    [best_cost] of the selection: the total of the chosen server, which
    for a busy server contains its residual busy time. *)
Lemma best_cost_of_busy_server (clock : nat -> Q) (j : LB.Job.t)
    (servers : list LB.Server.t) (i : nat) (c : Q) :
  LB.select clock j servers = (Some i, c) ->
  exists s, servers !! i = Some s /\
            c = LB.Server.get_cost (clock i) s j /\
            (LB.Server.queued_jobs s <> 0 ->
             c = ((LB.Server.t_avail s - clock i)
                  + inject_Z (LB.Server.get_job_cost s j))%Q).
Proof.
  unfold LB.select. intros Hscan.
  destruct (scan_spec clock j servers _ _ _ _ _ Hscan)
    as (_ & _ & [[Hb _] | (k & s & Hk & Hb & -> & _)]).
  - discriminate.
  - injection Hb as ->. simpl. exists s. repeat split; auto.
    intros Hq. unfold total_at, LB.Server.get_cost, LB.Server.get_tbusy.
    apply Z.eqb_neq in Hq. rewrite Hq. reflexivity.
Qed.


(** C1, as stated, fails in both programs: when [recv] raises after the
    reserve step, the call raises and the bookkeeping of the backend is
    not back at its value before the request. *)
Lemma failed_forward_is_not_released :
  (let s := LB.Server.init 0 KindV in
   exists s',
     LB.Server.send_and_recv 0 1 RecvRaises "V5" 5 s
     = (Raise OSError, s', ["V5"%string]) /\
     LB.Server.queued_jobs s = 0 /\ LB.Server.queued_jobs s' = 1) /\
  (let s := Bar.Server.init KindV in
   exists s',
     Bar.Server.request RecvRaises s (Bar.Str "V") 5
     = (Raise OSError, s', ["V5"%string]) /\
     Bar.Server.current_cost s = 0 /\ Bar.Server.current_cost s' = 5).
Proof.
  split; simpl; eexists; repeat split.
Qed.

(** C1, amended.  When the forward fails after the reserve step, the
    exception leaves the call with the reservation in place.
    [load_balancer.py] ([send] or [recv] raises, or the reply is empty):
    the server is left as the reserve block made it, with one more
    queued job.  [load_balancer_bar.py] ([send] or [recv] raises):
    [current_cost] is its value before the request plus the cost of the
    job. *)
Theorem failed_forward_keeps_reservation :
  (forall now1 now2 io msg cost s,
      io_raises io \/ io = RecvReturns "" ->
      exists e sent,
        LB.Server.send_and_recv now1 now2 io msg cost s
        = (Raise e, LB.Server.reserve now1 cost s, sent) /\
        LB.Server.queued_jobs (LB.Server.reserve now1 cost s)
        = LB.Server.queued_jobs s + 1) /\
  (forall io s request_type request_length request_cost,
      Bar.Server.server_cost s request_type request_length false
      = Ok request_cost ->
      io_raises io ->
      exists sent,
        Bar.Server.request io s request_type request_length
        = (Raise OSError, Bar.Server.reserve request_cost s, sent) /\
        Bar.Server.current_cost (Bar.Server.reserve request_cost s)
        = Bar.Server.current_cost s + request_cost).
Proof.
  split.
  - intros now1 now2 io msg cost s [[-> | ->] | ->]; simpl;
      eexists _, _; split; reflexivity.
  - intros io s ty len c Hc [-> | ->]; unfold Bar.Server.request;
      rewrite Hc; eexists; split; reflexivity.
Qed.

Lemma failed_forward_keeps_reservation_witness :
  (exists e sent,
      LB.Server.send_and_recv 0 1 (RecvReturns "") "V5" 5 (LB.Server.init 0 KindV)
      = (Raise e, LB.Server.reserve 0 5 (LB.Server.init 0 KindV), sent) /\
      LB.Server.queued_jobs (LB.Server.reserve 0 5 (LB.Server.init 0 KindV))
      = LB.Server.queued_jobs (LB.Server.init 0 KindV) + 1) /\
  (exists sent,
      Bar.Server.request SendRaises (Bar.Server.init KindM) (Bar.Str "V") 5
      = (Raise OSError, Bar.Server.reserve 15 (Bar.Server.init KindM), sent) /\
      Bar.Server.current_cost (Bar.Server.reserve 15 (Bar.Server.init KindM))
      = Bar.Server.current_cost (Bar.Server.init KindM) + 15).
Proof.
  split.
  - apply (proj1 failed_forward_keeps_reservation). right. reflexivity.
  - apply (proj2 failed_forward_keeps_reservation).
    + reflexivity.
    + left. reflexivity.
Defined.

(** C5.  Reserve followed by the matching release brings the
    bookkeeping back.  [load_balancer_bar.py]: subtracting the cost that
    was added restores the server, so a call of [request] that returns
    leaves [current_cost] as it found it.  [load_balancer.py]: the count
    of queued jobs is restored, so a call of [send_and_recv] that returns
    leaves [queued_jobs] as it found it, and a server that was idle
    before the reservation has no residual busy time after the release. *)
Theorem reserve_release_round_trip :
  (forall request_cost s,
      Bar.Server.release request_cost (Bar.Server.reserve request_cost s) = s) /\
  (forall io s request_type request_length,
      is_ok (Bar.Server.request io s request_type request_length).1.1 = true ->
      (Bar.Server.request io s request_type request_length).1.2 = s) /\
  (forall now1 now2 cost s,
      LB.Server.queued_jobs
        (LB.Server.release now2 (LB.Server.reserve now1 cost s))
      = LB.Server.queued_jobs s) /\
  (forall now1 now2 io msg cost s,
      is_ok (LB.Server.send_and_recv now1 now2 io msg cost s).1.1 = true ->
      LB.Server.queued_jobs (LB.Server.send_and_recv now1 now2 io msg cost s).1.2
      = LB.Server.queued_jobs s) /\
  (forall now1 now2 now cost s,
      LB.Server.queued_jobs s = 0 ->
      LB.Server.get_tbusy now
        (LB.Server.release now2 (LB.Server.reserve now1 cost s)) = 0%Q).
Proof.
  assert (Hbar : forall c s, Bar.Server.release c (Bar.Server.reserve c s) = s).
  { intros c [ty cc]. unfold Bar.Server.release, Bar.Server.reserve; simpl.
    f_equal. lia. }
  assert (Hlb : forall now1 now2 cost s,
             LB.Server.queued_jobs
               (LB.Server.release now2 (LB.Server.reserve now1 cost s))
             = LB.Server.queued_jobs s).
  { intros now1 now2 cost s. simpl. lia. }
  split; [exact Hbar|]. split; [|split; [exact Hlb|split]].
  - intros io s ty len. unfold Bar.Server.request.
    destruct (Bar.Server.server_cost s ty len false) as [c|e]; [|discriminate].
    destruct io; try discriminate.
    intros _. apply Hbar.
  - intros now1 now2 io msg cost s.
    unfold LB.Server.send_and_recv.
    destruct io as [| |r]; try discriminate.
    destruct (r =? "")%string; [discriminate|].
    intros _. apply Hlb.
  - intros now1 now2 now cost s Hq. unfold LB.Server.get_tbusy.
    rewrite Hlb, Hq. reflexivity.
Qed.

Lemma reserve_release_round_trip_witness :
  (Bar.Server.request (RecvReturns "done") (Bar.Server.Build KindM 7)
     (Bar.Str "P") 4).1.2
  = Bar.Server.Build KindM 7 /\
  LB.Server.queued_jobs
    (LB.Server.send_and_recv 1 3 (RecvReturns "done") "V5" 5
       (LB.Server.Build 2 9 KindV)).1.2
  = 2.
Proof.
  split.
  - apply (proj1 (proj2 reserve_release_round_trip)). reflexivity.
  - apply (proj1 (proj2 (proj2 (proj2 reserve_release_round_trip)))
             1%Q 3%Q (RecvReturns "done") "V5"%string 5%Q
             (LB.Server.Build 2 9 KindV)).
    reflexivity.
Defined.

(** ** C6: the bookkeeping along every history *)


(** The cost of a job of non-negative length is not negative. *)
Lemma server_cost_nonneg (s : Bar.Server.t) (ty : Bar.value) (len c : Z) :
  0 <= len -> Bar.Server.server_cost s ty len false = Ok c -> 0 <= c.
Proof.
  unfold Bar.Server.server_cost. intros Hlen.
  destruct (negb _); [discriminate|].
  destruct (Bar.Server.type s);
    repeat match goal with |- context [if ?b then _ else _] => destruct b end;
    intros H; injection H as <-; lia.
Qed.




(** The calls of the two programs move a backend by these steps only:
    a call of [request] is a reserve step, followed by the release step
    when the call returns; a call that raises before reserving is no
    step. *)
Lemma request_is_history (io : backend_io) (s : Bar.Server.t)
    (ty : Bar.value) (len : Z) (outstanding : list Z) :
  0 <= len ->
  exists outstanding',
    rtc bar_step (s, outstanding)
        ((Bar.Server.request io s ty len).1.2, outstanding') /\
    (is_ok (Bar.Server.request io s ty len).1.1 = true ->
     outstanding' = outstanding).
Proof.
  intros Hlen. unfold Bar.Server.request.
  destruct (Bar.Server.server_cost s ty len false) as [c|e] eqn:Hc.
  - pose proof (bar_reserve s outstanding ty len c Hlen Hc) as Hres.
    destruct io as [| |response]; simpl.
    + exists (c :: outstanding). split; [|discriminate].
      eapply rtc_l; [exact Hres|apply rtc_refl].
    + exists (c :: outstanding). split; [|discriminate].
      eapply rtc_l; [exact Hres|apply rtc_refl].
    + exists outstanding. split; [|reflexivity].
      eapply rtc_l; [exact Hres|].
      eapply rtc_l; [exact (bar_release _ [] c outstanding)|apply rtc_refl].
  - exists outstanding. split; [apply rtc_refl|discriminate].
Qed.

Lemma send_and_recv_is_history (now1 now2 : Q) (io : backend_io)
    (msg : bytes) (cost : Q) (s : LB.Server.t) (outstanding : nat) :
  exists outstanding',
    rtc lb_step (s, outstanding)
        ((LB.Server.send_and_recv now1 now2 io msg cost s).1.2, outstanding') /\
    (is_ok (LB.Server.send_and_recv now1 now2 io msg cost s).1.1 = true ->
     outstanding' = outstanding).
Proof.
  pose proof (lb_reserve s outstanding now1 cost) as Hres.
  unfold LB.Server.send_and_recv.
  destruct io as [| |res]; [| |destruct (res =? "")%string]; simpl.
  1-3: exists (S outstanding); split; [|discriminate];
       eapply rtc_l; [exact Hres|apply rtc_refl].
  exists outstanding. split; [|reflexivity].
  eapply rtc_l; [exact Hres|].
  eapply rtc_l; [exact (lb_release _ outstanding now2)|apply rtc_refl].
Qed.



(** The lengths [__handle_request] decodes are not negative. *)
Lemma decode_length_nonneg (v : Bar.py_version) (request : bytes)
    (ty : Bar.value) (len : Z) :
  Bar.decode v request = Ok (ty, len) -> 0 <= len.
Proof.
  unfold Bar.decode.
  destruct (index request 0) as [c0|]; simpl; [|discriminate].
  destruct (index request 1) as [c1|]; simpl; [|discriminate].
  destruct v.
  - unfold int_of_chr, is_digit.
    destruct (48 <=? ord c1) eqn:Hlo; simpl; [|discriminate].
    destruct (ord c1 <=? 57); simpl; [|discriminate].
    intros H. injection H as _ <-. apply Z.leb_le in Hlo. lia.
  - intros H. injection H as _ <-. unfold ord. lia.
Qed.

(** One call of [__handle_request] leaves the pool as it is, or moves
    one backend along a history and leaves the others as they are. *)
Lemma handle_request_moves_one_server (v : Bar.py_version) (draw : nat * nat)
    (io : backend_io) (payload : bytes) (servers : list Bar.Server.t) :
  let servers' := (Bar.handle_request v draw io payload servers).1.1.2 in
  servers' = servers \/
  exists i s s' outstanding',
    servers !! i = Some s /\ servers' = <[i := s']> servers /\
    rtc bar_step (s, []) (s', outstanding').
Proof.
  unfold Bar.handle_request.
  destruct (Bar.decode v (recv 1024 payload)) as [[ty len]|e] eqn:Hdec;
    [|left; reflexivity].
  apply decode_length_nonneg in Hdec.
  destruct (Bar.get_server draw servers ty len) as [i|e]; [|left; reflexivity].
  destruct (servers !! i) as [s|] eqn:Hi; [|left; reflexivity].
  destruct (request_is_history io s ty len [] Hdec) as (fl' & Hrtc & _).
  destruct (Bar.Server.request io s ty len) as [[r s'] sent].
  right. exists i, s, s', fl'.
  destruct r; simpl; auto.
Qed.

(** Line 120 of [load_balancer.py] moves the chosen backend along a
    history and leaves the others as they are. *)
Lemma forward_moves_one_server (now1 now2 : Q) (io : backend_io) (msg : bytes)
    (servers : list LB.Server.t) (i : nat) (cost : Q) (s : LB.Server.t) :
  servers !! i = Some s ->
  exists s' outstanding',
    (LB.forward now1 now2 io msg servers i cost).1.2 = <[i := s']> servers /\
    rtc lb_step (s, 0%nat) (s', outstanding').
Proof.
  intros Hi. unfold LB.forward. rewrite Hi.
  destruct (send_and_recv_is_history now1 now2 io msg cost s 0)
    as (n' & Hrtc & _).
  destruct (LB.Server.send_and_recv now1 now2 io msg cost s) as [[r s'] sent].
  exists s', n'. split; [reflexivity|exact Hrtc].
Qed.

(** ** C7: sampled-pair selection *)

Lemma server_cost_known (s : Bar.Server.t) (ty : Bar.value) (len : Z)
    (total : bool) :
  known_type ty = true ->
  exists c,
    Bar.Server.server_cost s ty len false = Ok c /\
    Bar.Server.server_cost s ty len total
    = Ok (if total then Bar.Server.current_cost s + c else c).
Proof.
  unfold known_type, Bar.Server.server_cost. intros ->. simpl.
  destruct total; eexists; split; reflexivity.
Qed.

Lemma server_cost_unknown (s : Bar.Server.t) (ty : Bar.value) (len : Z)
    (total : bool) :
  known_type ty = false ->
  Bar.Server.server_cost s ty len total = Raise ValueError.
Proof.
  unfold known_type, Bar.Server.server_cost. intros ->. reflexivity.
Qed.



(** ** C8: payloads that do not decode *)

Lemma recv_cons (n : nat) (c : ascii) (payload : bytes) :
  recv (S n) (String c payload) = String c (recv n payload).
Proof. reflexivity. Qed.

Lemma recv_empty (n : nat) : recv n "" = ""%string.
Proof. destruct n; reflexivity. Qed.

Lemma recv_0 (payload : bytes) : recv 0 payload = ""%string.
Proof. destruct payload; reflexivity. Qed.

Lemma recv_2 (k d : ascii) (rest : bytes) :
  recv 2 (String k (String d rest)) = String k (String d "").
Proof. rewrite !recv_cons, recv_0. reflexivity. Qed.

(** [__run_client] never returns: when the request decodes and a server
    is chosen, the log line raises before the request is forwarded.  No
    call changes a backend or writes to a socket. *)
Lemma run_client_raises (clock : nat -> Q) (now1 now2 : Q) (io : backend_io)
    (payload : bytes) (servers : list LB.Server.t) :
  exists e,
    LB.run_client clock now1 now2 io payload servers
    = (Raise e, servers, [], []).
Proof.
  unfold LB.run_client.
  destruct (recv 2 payload =? "")%string; [eexists; reflexivity|].
  unfold LB.send_to_servers.
  destruct (LB.parse_job (recv 2 payload)) as [j|e]; [|eexists; reflexivity].
  destruct (LB.select clock j servers) as [[i|] c]; eexists; reflexivity.
Qed.

Lemma known_type_str (k : ascii) :
  known_type (Bar.Str (String k "")) = known_kind k.
Proof.
  unfold known_type, known_kind, Bar.eq_str. simpl.
  destruct (k =? "V")%char, (k =? "P")%char, (k =? "M")%char; reflexivity.
Qed.

Lemma get_server_unknown (draw : nat * nat) (servers : list Bar.Server.t)
    (ty : Bar.value) (len : Z) :
  known_type ty = false ->
  exists e, Bar.get_server draw servers ty len = Raise e.
Proof.
  intros Hty. unfold Bar.get_server.
  destruct (Bar.sample (length servers) draw) as [d|e]; simpl;
    [|eexists; reflexivity].
  destruct (Bar.servers_index servers d.1) as [s1|e]; simpl;
    [|eexists; reflexivity].
  destruct (Bar.servers_index servers d.2) as [s2|e]; simpl;
    [|eexists; reflexivity].
  rewrite (server_cost_unknown s1 ty len true Hty). eexists; reflexivity.
Qed.

(** C8, as stated, fails in both programs: the payload ["Vx"] has no
    decimal size, and the handler does not close the connection. *)
Lemma undecodable_payload_is_not_closed :
  ~ (forall payload clock now1 now2 io servers,
        spec_decodable payload = false ->
        In ClientClose (LB.run_client clock now1 now2 io payload servers).2) /\
  ~ (forall payload v draw io servers,
        spec_decodable payload = false ->
        In ClientClose (Bar.handle_request v draw io payload servers).2).
Proof.
  split; intros H.
  - exact (H "Vx"%string (fun _ => 0%Q) 0%Q 0%Q (RecvReturns "ok")
             (LB.initial_servers 0) eq_refl).
  - exact (H "Vx"%string Bar.Python2 (0, 1)%nat (RecvReturns "ok")
             [Bar.Server.init KindV; Bar.Server.init KindM] eq_refl).
Qed.

(** C8, amended.  For every payload that does not begin with a known
    kind tag followed by a decimal digit, handling the request raises an
    exception that nothing catches; no backend is changed, nothing is
    written to a backend or to the client, and the handler does not
    reach its call of [close]. *)
Theorem undecodable_payload_raises (payload : bytes) :
  head_decodable payload = false ->
  (forall clock now1 now2 io servers,
      exists e,
        LB.run_client clock now1 now2 io payload servers
        = (Raise e, servers, [], [])) /\
  (forall v draw io servers,
      exists e,
        Bar.handle_request v draw io payload servers
        = (Raise e, servers, [], [])).
Proof.
  intros Hhead. split.
  - intros. apply run_client_raises.
  - intros v draw io servers. unfold Bar.handle_request.
    destruct payload as [|k [|d rest]].
    + eexists; reflexivity.
    + eexists; reflexivity.
    + change 1024%nat with (S (S 1022)). rewrite !recv_cons.
      unfold Bar.decode. simpl. simpl in Hhead.
      destruct v.
      * unfold int_of_chr. destruct (is_digit d); simpl; [|eexists; reflexivity].
        rewrite andb_true_r in Hhead.
        rewrite <- known_type_str in Hhead.
        destruct (get_server_unknown draw servers _ (ord d - 48) Hhead) as [e ->].
        eexists; reflexivity.
      * destruct (get_server_unknown draw servers (Bar.Int (ord k)) (ord d) eq_refl)
          as [e ->].
        eexists; reflexivity.
Qed.

Lemma undecodable_payload_raises_witness :
  (exists e,
      LB.run_client (fun _ => 0%Q) 0 0 (RecvReturns "ok") "V" (LB.initial_servers 0)
      = (Raise e, LB.initial_servers 0, [], [])) /\
  (exists e,
      Bar.handle_request Bar.Python2 (0, 1)%nat (RecvReturns "ok") "X5"
        [Bar.Server.init KindV; Bar.Server.init KindM]
      = (Raise e, [Bar.Server.init KindV; Bar.Server.init KindM], [], [])).
Proof.
  split.
  - apply (proj1 (undecodable_payload_raises "V" eq_refl)).
  - apply (proj2 (undecodable_payload_raises "X5" eq_refl)).
Defined.

(** ** C9: the wire format *)

(** [str(n)] of the value of a digit is that digit. *)
Lemma str_of_digit (d : ascii) :
  is_digit d = true -> str_of_int (ord d - 48) = String d "".
Proof.
  destruct d as [[] [] [] [] [] [] [] []]; intros H;
    try discriminate H; reflexivity.
Qed.

Lemma decimal_value_digit (d : ascii) : decimal_value (String d "") = ord d - 48.
Proof. unfold decimal_value. simpl. lia. Qed.

(** C9, as stated, fails: of a size of several digits only the first is
    decoded.  For the request ["V12"], [load_balancer.py] builds a job of
    size 1, and [load_balancer_bar.py] decodes the length 1 (Python 2) or
    49 (Python 3), not 12. *)
Lemma multi_digit_size_is_not_decoded :
  ~ (forall k rest,
        known_kind k = true -> rest <> ""%string -> all_digits rest = true ->
        LB.parse_job (recv 2 (String k rest))
        = Ok (LB.Job.Build k (decimal_value rest))) /\
  (forall v,
      ~ (forall k rest,
            known_kind k = true -> rest <> ""%string -> all_digits rest = true ->
            exists request_type,
              Bar.decode v (recv 1024 (String k rest))
              = Ok (request_type, decimal_value rest))).
Proof.
  split.
  - intros H.
    specialize (H "V"%char "12"%string eq_refl ltac:(discriminate) eq_refl).
    vm_compute in H. discriminate H.
  - intros v H.
    destruct (H "V"%char "12"%string eq_refl ltac:(discriminate) eq_refl)
      as [ty Hty].
    destruct v; vm_compute in Hty; discriminate Hty.
Qed.

(** C9, amended.  For every request whose second byte is a decimal
    digit, whatever follows it: [load_balancer.py] reads the first two
    bytes, builds the job whose kind is the first byte and whose size is
    the value of that digit, and [send_and_recv] writes the bytes it is
    given to the backend unchanged; [load_balancer_bar.py] under Python 2
    decodes the same kind and size and [request] writes their encoding,
    which is again those two bytes. *)
Theorem one_digit_request_round_trip (k d : ascii) (rest : string) :
  is_digit d = true ->
  let request := String k (String d "") in
  let size := decimal_value (String d "") in
  recv 2 (String k (String d rest)) = request /\
  LB.parse_job (recv 2 (String k (String d rest))) = Ok (LB.Job.Build k size) /\
  (forall now1 now2 io cost s,
      io <> SendRaises ->
      (LB.Server.send_and_recv now1 now2 io request cost s).2 = [request]) /\
  Bar.decode Bar.Python2 (recv 1024 (String k (String d rest)))
  = Ok (Bar.Str (String k ""), size) /\
  Bar.Server.encode (Bar.Str (String k "")) size = request /\
  (forall io s,
      known_kind k = true -> io <> SendRaises ->
      (Bar.Server.request io s (Bar.Str (String k "")) size).2 = [request]).
Proof.
  intros Hd request size. subst size. rewrite decimal_value_digit.
  assert (Henc : Bar.Server.encode (Bar.Str (String k "")) (ord d - 48) = request).
  { unfold Bar.Server.encode. simpl. rewrite (str_of_digit d Hd). reflexivity. }
  split; [apply recv_2|]. split.
  { rewrite recv_2. unfold LB.parse_job, int_of_chr. simpl.
    rewrite Hd. reflexivity. }
  split.
  { intros now1 now2 io cost s Hio. unfold LB.Server.send_and_recv.
    destruct io as [| |res]; [congruence|reflexivity|].
    destruct (res =? "")%string; reflexivity. }
  split.
  { change 1024%nat with (S (S 1022)). rewrite !recv_cons.
    unfold Bar.decode, int_of_chr. simpl. rewrite Hd. reflexivity. }
  split; [exact Henc|].
  intros io s Hk Hio. unfold Bar.Server.request.
  rewrite <- known_type_str in Hk.
  destruct (server_cost_known s (Bar.Str (String k "")) (ord d - 48) false Hk)
    as (c & Hc & _).
  rewrite Hc, Henc.
  destruct io; [congruence|reflexivity|reflexivity].
Qed.

Lemma one_digit_request_round_trip_witness :
  LB.parse_job (recv 2 "M7") = Ok (LB.Job.Build "M" 7) /\
  Bar.decode Bar.Python2 (recv 1024 "M7") = Ok (Bar.Str "M", 7) /\
  Bar.Server.encode (Bar.Str "M") 7 = "M7"%string.
Proof.
  destruct (one_digit_request_round_trip "M" "7" "" eq_refl)
    as (_ & Hparse & _ & Hdec & Henc & _).
  split; [exact Hparse|]. split; [exact Hdec|exact Henc].
Defined.

(** * Further properties of the code *)

(** ** Decoding and the handler of [load_balancer.py] *)

(** X1.  Line 109 of [load_balancer.py] builds a job exactly from the
    messages of at least two bytes whose second byte is a decimal digit:
    a shorter message raises IndexError, another second byte raises
    ValueError.  The kind of the job is the first byte, whatever it is,
    and its size is between 0 and 9. *)
Theorem parse_job_outcome (msg : bytes) :
  ((String.length msg < 2)%nat -> LB.parse_job msg = Raise IndexError) /\
  (forall k d rest,
      msg = String k (String d rest) ->
      LB.parse_job msg
      = if is_digit d then Ok (LB.Job.Build k (ord d - 48))
        else Raise ValueError) /\
  (forall j,
      LB.parse_job msg = Ok j ->
      0 <= LB.Job.cost j <= 9 /\
      exists d rest,
        msg = String (LB.Job.kind j) (String d rest) /\ is_digit d = true).
Proof.
  assert (Hcons : forall k d rest,
             LB.parse_job (String k (String d rest))
             = if is_digit d then Ok (LB.Job.Build k (ord d - 48))
               else Raise ValueError).
  { intros k d rest. unfold LB.parse_job, int_of_chr. simpl.
    destruct (is_digit d); reflexivity. }
  split; [|split].
  - destruct msg as [|k [|d rest]]; simpl; intros Hlen;
      [reflexivity|reflexivity|lia].
  - intros k d rest ->. apply Hcons.
  - intros j Hj. destruct msg as [|k [|d rest]]; try discriminate Hj.
    rewrite Hcons in Hj. destruct (is_digit d) eqn:Hd; [|discriminate Hj].
    injection Hj as <-. simpl. split.
    + unfold is_digit in Hd. apply andb_true_iff in Hd as [Hlo Hhi].
      apply Z.leb_le in Hlo, Hhi. lia.
    + exists d, rest. split; [reflexivity|exact Hd].
Qed.

Lemma parse_job_outcome_witness :
  LB.parse_job "M" = Raise IndexError /\
  LB.parse_job "Vx" = Raise ValueError /\
  0 <= LB.Job.cost (LB.Job.Build "X" 7) <= 9.
Proof.
  split; [|split].
  - apply (proj1 (parse_job_outcome "M")). simpl. lia.
  - apply (proj1 (proj2 (parse_job_outcome "Vx")) "V"%char "x"%char ""%string).
    reflexivity.
  - apply (proj2 (proj2 (parse_job_outcome "X7"))). reflexivity.
Defined.

(** X2.  What [__run_client] does, for every payload: it raises, and it
    changes no server and writes to no socket.  The exception is
    AssertionError for an empty payload, IndexError for one byte,
    ValueError when the second byte is not a digit; when the job is
    built, AssertionError if the selection finds no server and otherwise
    the AttributeError of the log line, before the request is
    forwarded. *)
Theorem run_client_outcome (clock : nat -> Q) (now1 now2 : Q)
    (io : backend_io) (payload : bytes) (servers : list LB.Server.t) :
  LB.run_client clock now1 now2 io payload servers
  = (Raise
       match payload with
       | EmptyString => AssertionError
       | String _ EmptyString => IndexError
       | String k (String d _) =>
           if is_digit d then
             match (LB.select clock (LB.Job.Build k (ord d - 48)) servers).1 with
             | Some _ => AttributeError
             | None => AssertionError
             end
           else ValueError
       end,
     servers, [], []).
Proof.
  destruct payload as [|k [|d rest]]; [reflexivity|reflexivity|].
  unfold LB.run_client. rewrite recv_2. simpl.
  unfold LB.send_to_servers, LB.parse_job, int_of_chr. simpl.
  destruct (is_digit d); simpl; [|reflexivity].
  destruct (LB.select clock _ servers) as [[i|] c]; reflexivity.
Qed.

(** ** The cost of a job *)

(** X3.  The cost of a job is linear in its size, with a multiplier
    between 1 and 3 that depends on the kinds only: in
    [load_balancer.py] for every kind byte, in [load_balancer_bar.py]
    for every request type that is accepted.  So for a size that is not
    negative the cost lies between the size and three times the size. *)
Theorem job_cost_linear (S : Z) :
  (forall s k,
      LB.Server.get_job_cost s (LB.Job.Build k S)
      = LB.Server.get_job_cost s (LB.Job.Build k 1) * S /\
      1 <= LB.Server.get_job_cost s (LB.Job.Build k 1) <= 3) /\
  (forall s request_type c,
      Bar.Server.server_cost s request_type S false = Ok c ->
      exists m,
        Bar.Server.server_cost s request_type 1 false = Ok m /\
        1 <= m <= 3 /\ c = m * S) /\
  (0 <= S ->
   (forall s k, S <= LB.Server.get_job_cost s (LB.Job.Build k S) <= 3 * S) /\
   (forall s request_type c,
       Bar.Server.server_cost s request_type S false = Ok c ->
       S <= c <= 3 * S)).
Proof.
  assert (Hlb : forall s k,
             LB.Server.get_job_cost s (LB.Job.Build k S)
             = LB.Server.get_job_cost s (LB.Job.Build k 1) * S /\
             1 <= LB.Server.get_job_cost s (LB.Job.Build k 1) <= 3).
  { intros s k. unfold LB.Server.get_job_cost. simpl.
    destruct (LB.Server.kind s);
      repeat match goal with |- context [if ?b then _ else _] => destruct b end;
      lia. }
  assert (Hbar : forall s ty c,
             Bar.Server.server_cost s ty S false = Ok c ->
             exists m,
               Bar.Server.server_cost s ty 1 false = Ok m /\
               1 <= m <= 3 /\ c = m * S).
  { intros s ty c. unfold Bar.Server.server_cost.
    destruct (negb _); [discriminate|].
    destruct (Bar.Server.type s);
      repeat match goal with |- context [if ?b then _ else _] => destruct b end;
      intros H; injection H as <-; eexists; (split; [reflexivity|]); lia. }
  split; [exact Hlb|]. split; [exact Hbar|].
  intros HS. split.
  - intros s k. destruct (Hlb s k) as [-> Hm]. nia.
  - intros s ty c Hc. destruct (Hbar s ty c Hc) as (m & _ & Hm & ->). nia.
Qed.

Lemma job_cost_linear_witness :
  exists m,
    Bar.Server.server_cost (Bar.Server.Build KindM 2) (Bar.Str "V") 1 false
    = Ok m /\ 1 <= m <= 3 /\ 21 = m * 7.
Proof.
  apply (proj1 (proj2 (job_cost_linear 7))). reflexivity.
Defined.

(** X4.  [load_balancer.py] does not reject a job kind.  A kind byte
    other than V, P and M is costed as the most expensive job of the
    server: twice its size on a video server, like a music job, and
    three times its size on a music server, like a video job. *)
Theorem unknown_kind_costs_most (s : LB.Server.t) (k : ascii) (S : Z) :
  known_kind k = false ->
  LB.Server.get_job_cost s (LB.Job.Build k S)
  = match LB.Server.kind s with KindV => 2 * S | KindM => 3 * S end /\
  LB.Server.get_job_cost s (LB.Job.Build k S)
  = LB.Server.get_job_cost s
      (LB.Job.Build (match LB.Server.kind s with KindV => "M" | KindM => "V" end)
                    S)%char /\
  (0 <= S ->
   forall k', LB.Server.get_job_cost s (LB.Job.Build k' S)
              <= LB.Server.get_job_cost s (LB.Job.Build k S)).
Proof.
  unfold known_kind. intros Hk.
  apply orb_false_iff in Hk as [Hk HM]. apply orb_false_iff in Hk as [HV HP].
  unfold LB.Server.get_job_cost. simpl. rewrite HV, HP, HM. simpl.
  destruct (LB.Server.kind s); simpl; (split; [lia|split; [lia|]]);
    intros HS k';
    repeat match goal with |- context [if ?b then _ else _] => destruct b end;
    lia.
Qed.

Lemma unknown_kind_costs_most_witness :
  LB.Server.get_job_cost (LB.Server.Build 0 0 KindM) (LB.Job.Build "X" 4) = 3 * 4.
Proof.
  apply (proj1 (unknown_kind_costs_most (LB.Server.Build 0 0 KindM) "X" 4 eq_refl)).
Defined.

(** [__get_server] on a request type that is not accepted, for two
    positions of the pool. *)
Lemma get_server_rejects (draw : nat * nat) (servers : list Bar.Server.t)
    (ty : Bar.value) (len : Z) :
  known_type ty = false ->
  Bar.valid_draw (length servers) draw ->
  Bar.get_server draw servers ty len = Raise ValueError.
Proof.
  intros Hty (H1 & H2 & _).
  destruct (lookup_lt_is_Some_2 servers draw.1 H1) as [s1 Hs1].
  destruct (lookup_lt_is_Some_2 servers draw.2 H2) as [s2 Hs2].
  unfold Bar.get_server, Bar.sample.
  destruct (length servers <? 2)%nat; [reflexivity|].
  unfold Bar.servers_index. cbn -[Bar.Server.server_cost].
  rewrite Hs1, Hs2. cbn -[Bar.Server.server_cost].
  rewrite (server_cost_unknown s1 ty len true Hty). reflexivity.
Qed.

(** X5.  [load_balancer_bar.py] rejects a request type other than V, P
    and M before it touches anything: [request] raises ValueError, the
    server is as it was and nothing is written to its socket;
    [server_cost] raises for both values of [total]; and
    [__get_server] raises ValueError for every two positions of the
    pool. *)
Theorem unknown_type_is_rejected (request_type : Bar.value)
    (request_length : Z) :
  known_type request_type = false ->
  (forall s total,
      Bar.Server.server_cost s request_type request_length total
      = Raise ValueError) /\
  (forall io s,
      Bar.Server.request io s request_type request_length
      = (Raise ValueError, s, [])) /\
  (forall draw servers,
      Bar.valid_draw (length servers) draw ->
      Bar.get_server draw servers request_type request_length
      = Raise ValueError).
Proof.
  intros Hty.
  assert (Hcost : forall s total,
             Bar.Server.server_cost s request_type request_length total
             = Raise ValueError).
  { intros s total. unfold Bar.Server.server_cost.
    unfold known_type in Hty. rewrite Hty. reflexivity. }
  split; [exact Hcost|]. split.
  - intros io s. unfold Bar.Server.request. rewrite Hcost. reflexivity.
  - intros draw servers Hdraw. apply get_server_rejects; [exact Hty|exact Hdraw].
Qed.

Lemma unknown_type_is_rejected_witness :
  Bar.Server.request (RecvReturns "ok") (Bar.Server.Build KindV 3) (Bar.Int 86) 5
  = (Raise ValueError, Bar.Server.Build KindV 3, []).
Proof.
  apply (proj1 (proj2 (unknown_type_is_rejected (Bar.Int 86) 5 eq_refl))).
Defined.

(** ** The busy-until estimate of [load_balancer.py] *)

(** X6.  The [t_avail] of a server without queued jobs is never looked
    at: its total for a job is the cost of the job at every clock
    reading, and its total and the outcome of [send_and_recv] are the
    same for every value of [t_avail]. *)
Theorem idle_server_ignores_t_avail (t t' : Q) (k : server_kind) :
  let s := LB.Server.Build 0 t k in
  let s' := LB.Server.Build 0 t' k in
  (forall now j,
      (LB.Server.get_cost now s j == inject_Z (LB.Server.get_job_cost s j))%Q /\
      LB.Server.get_cost now s j = LB.Server.get_cost now s' j) /\
  (forall now1 now2 io msg cost,
      LB.Server.send_and_recv now1 now2 io msg cost s
      = LB.Server.send_and_recv now1 now2 io msg cost s').
Proof.
  intros s s'. split.
  - intros now j. split; [|reflexivity].
    unfold LB.Server.get_cost, LB.Server.get_tbusy. simpl. lra.
  - intros now1 now2 io msg cost. reflexivity.
Qed.

(** X7.  The residual busy time of a server is not cut off at zero.  A
    server with queued jobs whose [t_avail] lies in the past has a
    negative residual, so its total for a job is below the cost of the
    job, and below the total of an idle server of the same kind: of the
    two, the selection takes the late one. *)
Theorem overdue_server_is_preferred (now : Q) (s : LB.Server.t) (j : LB.Job.t) :
  LB.Server.queued_jobs s <> 0 ->
  (LB.Server.t_avail s < now)%Q ->
  (LB.Server.get_tbusy now s < 0)%Q /\
  (LB.Server.get_cost now s j < inject_Z (LB.Server.get_job_cost s j))%Q /\
  (forall t0 clock,
      let idle := LB.Server.Build 0 t0 (LB.Server.kind s) in
      clock 1%nat = now ->
      LB.Server.get_job_cost s j < 2 ^ 31 ->
      LB.select clock j [idle; s] = (Some 1%nat, LB.Server.get_cost now s j)).
Proof.
  intros Hq Hlate.
  assert (Hbusy : LB.Server.get_tbusy now s = (LB.Server.t_avail s - now)%Q).
  { unfold LB.Server.get_tbusy. apply Z.eqb_neq in Hq. rewrite Hq. reflexivity. }
  assert (Hneg : (LB.Server.get_tbusy now s < 0)%Q) by (rewrite Hbusy; lra).
  split; [exact Hneg|]. split.
  - unfold LB.Server.get_cost. lra.
  - intros t0 clock idle Hclock Hsmall. unfold LB.select. simpl.
    assert (Hidle : (LB.Server.get_cost (clock 0%nat) idle j
                     == inject_Z (LB.Server.get_job_cost s j))%Q).
    { unfold LB.Server.get_cost, LB.Server.get_tbusy, LB.Server.get_job_cost.
      simpl. lra. }
    assert (H0 : Qltb (LB.Server.get_cost (clock 0%nat) idle j) LB.sentinel = true).
    { apply Qltb_lt. rewrite Hidle. unfold LB.sentinel.
      rewrite <- Zlt_Qlt. exact Hsmall. }
    rewrite H0, Hclock.
    assert (H1 : Qltb (LB.Server.get_cost now s j)
                      (LB.Server.get_cost (clock 0%nat) idle j) = true).
    { apply Qltb_lt. rewrite Hidle. unfold LB.Server.get_cost. lra. }
    rewrite H1. reflexivity.
Qed.

Lemma overdue_server_is_preferred_witness :
  LB.select (fun _ => 50%Q) (LB.Job.Build "V" 5)
    [LB.Server.Build 0 0 KindV; LB.Server.Build 1 40 KindV]
  = (Some 1%nat,
     LB.Server.get_cost 50 (LB.Server.Build 1 40 KindV) (LB.Job.Build "V" 5)).
Proof.
  apply (proj2 (proj2 (overdue_server_is_preferred 50
                         (LB.Server.Build 1 40 KindV) (LB.Job.Build "V" 5)
                         ltac:(discriminate) ltac:(reflexivity)))
           0%Q (fun _ => 50%Q)).
  - reflexivity.
  - reflexivity.
Defined.

(** X8.  The estimate does not go down when a job completes on a busy
    server.  When [send_and_recv] returns on a server that had queued
    jobs, the count of queued jobs is as before and [t_avail] has moved
    forward by the [cost] argument: the residual busy time of the server
    is higher by [cost] than before the call, at every clock reading. *)
Theorem completed_job_stays_in_estimate (now1 now2 : Q) (res msg : bytes)
    (cost : Q) (s : LB.Server.t) :
  LB.Server.queued_jobs s <> 0 ->
  res <> ""%string ->
  exists s',
    LB.Server.send_and_recv now1 now2 (RecvReturns res) msg cost s
    = (Ok res, s', [msg]) /\
    LB.Server.queued_jobs s' = LB.Server.queued_jobs s /\
    LB.Server.t_avail s' = (LB.Server.t_avail s + cost)%Q /\
    forall now,
      (LB.Server.get_tbusy now s' == LB.Server.get_tbusy now s + cost)%Q.
Proof.
  intros Hq Hres. apply Z.eqb_neq in Hq. apply String.eqb_neq in Hres.
  unfold LB.Server.send_and_recv. rewrite Hres.
  eexists. split; [reflexivity|].
  assert (Hq' : (LB.Server.queued_jobs s + 1 - 1 =? 0) = false).
  { apply Z.eqb_neq. apply Z.eqb_neq in Hq. lia. }
  split; [simpl; lia|]. split.
  - simpl. rewrite Hq', Hq. reflexivity.
  - intros now. unfold LB.Server.get_tbusy. simpl. rewrite Hq', Hq. lra.
Qed.

Lemma completed_job_stays_in_estimate_witness :
  exists s',
    LB.Server.send_and_recv 100 103 (RecvReturns "ok") "V5" 5
      (LB.Server.Build 1 109 KindV)
    = (Ok "ok"%string, s', ["V5"%string]) /\
    LB.Server.queued_jobs s' = 1 /\
    LB.Server.t_avail s' = (109 + 5)%Q.
Proof.
  destruct (completed_job_stays_in_estimate 100 103 "ok" "V5" 5
              (LB.Server.Build 1 109 KindV)
              ltac:(discriminate) ltac:(discriminate))
    as (s' & Hcall & Hq & Ht & _).
  exists s'. split; [exact Hcall|]. split; [exact Hq|exact Ht].
Defined.

(** X9.  What the selection hands to the reserve block.  When the chosen
    server is idle, reserving [best_cost] at the reading [now] leaves a
    residual busy time equal to the cost of the job.  When it has queued
    jobs, [best_cost] contains its residual busy time, and reserving it
    at the reading of the selection leaves twice the old residual plus
    the cost of the job. *)
Theorem reserve_after_select (clock : nat -> Q) (j : LB.Job.t)
    (servers : list LB.Server.t) (i : nat) (best_cost : Q) :
  LB.select clock j servers = (Some i, best_cost) ->
  exists s,
    servers !! i = Some s /\
    (LB.Server.queued_jobs s = 0 ->
     forall now,
       (LB.Server.get_tbusy now (LB.Server.reserve now best_cost s)
        == inject_Z (LB.Server.get_job_cost s j))%Q) /\
    (0 < LB.Server.queued_jobs s ->
     (LB.Server.get_tbusy (clock i) (LB.Server.reserve (clock i) best_cost s)
      == 2 * LB.Server.get_tbusy (clock i) s
         + inject_Z (LB.Server.get_job_cost s j))%Q).
Proof.
  intros Hsel.
  destruct (best_cost_of_busy_server clock j servers i best_cost Hsel)
    as (s & Hs & Hc & Hbusy).
  exists s. split; [exact Hs|]. split.
  - intros Hq now. subst best_cost.
    unfold LB.Server.get_tbusy, LB.Server.get_cost, LB.Server.get_tbusy.
    simpl. rewrite Hq. simpl. lra.
  - intros Hpos.
    assert (Hq : LB.Server.queued_jobs s <> 0) by lia.
    rewrite (Hbusy Hq).
    unfold LB.Server.get_tbusy. simpl.
    apply Z.eqb_neq in Hq. rewrite Hq.
    assert (Hq' : (LB.Server.queued_jobs s + 1 =? 0) = false)
      by (apply Z.eqb_neq; lia).
    rewrite Hq'. lra.
Qed.

Lemma reserve_after_select_witness :
  exists s,
    busy_pool !! 0%nat = Some s /\
    (LB.Server.get_tbusy 100 (LB.Server.reserve 100 14 s)
     == 2 * LB.Server.get_tbusy 100 s
        + inject_Z (LB.Server.get_job_cost s (LB.Job.Build "V" 5)))%Q.
Proof.
  destruct (reserve_after_select (fun _ => 100%Q) (LB.Job.Build "V" 5)
              busy_pool 0 14 eq_refl) as (s & Hs & _ & Hbusy).
  exists s. split; [exact Hs|].
  simpl in Hs. injection Hs as <-.
  apply Hbusy. reflexivity.
Defined.

(** ** The pool of [load_balancer.py] *)



(** ** Sampled-pair selection of [load_balancer_bar.py] *)

(** X11.  [__get_server] returns one of the two positions drawn, and the
    total of the server it returns is not above the total of the other.
    The order of the draw matters on a tie only: when the two totals
    differ, drawing the positions in the other order gives the same
    server; when they are equal, the second drawn is returned. *)
Theorem get_server_minimal_of_pair (servers : list Bar.Server.t)
    (draw : nat * nat) (request_type : Bar.value) (request_length : Z)
    (server_1 server_2 : Bar.Server.t) :
  (2 <= length servers)%nat ->
  servers !! draw.1 = Some server_1 ->
  servers !! draw.2 = Some server_2 ->
  known_type request_type = true ->
  let total_1 := bar_total server_1 request_type request_length in
  let total_2 := bar_total server_2 request_type request_length in
  exists r,
    Bar.get_server draw servers request_type request_length = Ok r /\
    (r = draw.1 /\ total_1 < total_2 \/ r = draw.2 /\ total_2 <= total_1) /\
    (total_1 <> total_2 ->
     Bar.get_server (draw.2, draw.1) servers request_type request_length = Ok r) /\
    (total_1 = total_2 -> r = draw.2).
Proof.
  intros Hpool Hs1 Hs2 Hty total_1 total_2.
  assert (Hlen : (length servers <? 2)%nat = false)
    by (apply Nat.ltb_ge; exact Hpool).
  assert (Hget : forall d s1 s2,
             servers !! d.1 = Some s1 -> servers !! d.2 = Some s2 ->
             Bar.get_server d servers request_type request_length
             = Ok (if bar_total s1 request_type request_length
                      <? bar_total s2 request_type request_length
                   then d.1 else d.2)).
  { intros d s1 s2 H1 H2. unfold Bar.get_server, Bar.sample, bar_total.
    rewrite Hlen. simpl. unfold Bar.servers_index. rewrite H1, H2. simpl.
    destruct (server_cost_known s1 request_type request_length true Hty)
      as (k1 & _ & ->).
    destruct (server_cost_known s2 request_type request_length true Hty)
      as (k2 & _ & ->).
    simpl. destruct (_ <? _); reflexivity. }
  rewrite (Hget draw server_1 server_2 Hs1 Hs2).
  rewrite (Hget (draw.2, draw.1) server_2 server_1 Hs2 Hs1). simpl.
  fold total_1 total_2.
  destruct (Z.ltb_spec total_1 total_2) as [Hlt|Hge].
  - exists draw.1. split; [reflexivity|]. split; [left; auto|]. split.
    + intros _. destruct (Z.ltb_spec total_2 total_1); [lia|reflexivity].
    + lia.
  - exists draw.2. split; [reflexivity|]. split; [right; auto|]. split.
    + intros Hne. destruct (Z.ltb_spec total_2 total_1); [reflexivity|lia].
    + reflexivity.
Qed.

Lemma get_server_minimal_of_pair_witness :
  exists r,
    Bar.get_server (0, 1)%nat
      [Bar.Server.Build KindV 0; Bar.Server.Build KindM 0] (Bar.Str "P") 4
    = Ok r /\
    Bar.get_server (1, 0)%nat
      [Bar.Server.Build KindV 0; Bar.Server.Build KindM 0] (Bar.Str "P") 4
    = Ok r.
Proof.
  destruct (get_server_minimal_of_pair
              [Bar.Server.Build KindV 0; Bar.Server.Build KindM 0]
              (0, 1)%nat (Bar.Str "P") 4
              (Bar.Server.Build KindV 0) (Bar.Server.Build KindM 0)
              ltac:(simpl; lia) eq_refl eq_refl eq_refl)
    as (r & Hr & _ & Hswap & _).
  exists r. split; [exact Hr|]. apply Hswap. vm_compute. discriminate.
Defined.

(** X12.  A pool of fewer than two servers serves nothing:
    [__get_server] raises ValueError for every request, and
    [__handle_request] raises IndexError or ValueError, changes no
    server and writes to no socket. *)
Theorem small_pool_serves_nothing (servers : list Bar.Server.t) :
  (length servers < 2)%nat ->
  (forall draw request_type request_length,
      Bar.get_server draw servers request_type request_length
      = Raise ValueError) /\
  (forall v draw io payload,
      exists e,
        Bar.handle_request v draw io payload servers
        = (Raise e, servers, [], []) /\
        (e = IndexError \/ e = ValueError)).
Proof.
  intros Hlen.
  assert (Hget : forall draw ty len,
             Bar.get_server draw servers ty len = Raise ValueError).
  { intros draw ty len. unfold Bar.get_server, Bar.sample.
    apply Nat.ltb_lt in Hlen. rewrite Hlen. reflexivity. }
  split; [exact Hget|].
  intros v draw io payload. unfold Bar.handle_request.
  destruct (Bar.decode v (recv 1024 payload)) as [[ty len]|e] eqn:Hdec.
  - rewrite Hget. eexists; split; [reflexivity|right; reflexivity].
  - exists e. split; [reflexivity|].
    unfold Bar.decode in Hdec.
    destruct (index (recv 1024 payload) 0) as [c0|e0] eqn:H0; simpl in Hdec.
    + destruct (index (recv 1024 payload) 1) as [c1|e1] eqn:H1; simpl in Hdec.
      * destruct v; [|discriminate Hdec].
        unfold int_of_chr in Hdec. destruct (is_digit c1); simpl in Hdec;
          [discriminate Hdec|]. injection Hdec as <-. right; reflexivity.
      * unfold index in H1. destruct (String.get 1 _); [discriminate H1|].
        injection H1 as <-. injection Hdec as <-. left; reflexivity.
    + unfold index in H0. destruct (String.get 0 _); [discriminate H0|].
      injection H0 as <-. injection Hdec as <-. left; reflexivity.
Qed.

Lemma small_pool_serves_nothing_witness :
  Bar.get_server (0, 0)%nat [Bar.Server.init KindV] (Bar.Str "V") 5
  = Raise ValueError.
Proof.
  apply (proj1 (small_pool_serves_nothing [Bar.Server.init KindV]
                  ltac:(simpl; lia))).
Defined.

(** ** The handler of [load_balancer_bar.py] *)

(** X13.  Under Python 3 [__handle_request] serves no request.  The
    request type it decodes is an integer, which [server_cost] rejects:
    for every payload the handler raises, changes no server and writes
    to no socket.  The exception is IndexError for a payload of fewer
    than two bytes and, when the two positions drawn are in the pool,
    ValueError for every other payload. *)
Theorem python3_rejects_every_request (draw : nat * nat) (io : backend_io)
    (payload : bytes) (servers : list Bar.Server.t) :
  (exists e,
      Bar.handle_request Bar.Python3 draw io payload servers
      = (Raise e, servers, [], [])) /\
  ((String.length payload < 2)%nat ->
   Bar.handle_request Bar.Python3 draw io payload servers
   = (Raise IndexError, servers, [], [])) /\
  ((2 <= String.length payload)%nat ->
   Bar.valid_draw (length servers) draw ->
   Bar.handle_request Bar.Python3 draw io payload servers
   = (Raise ValueError, servers, [], [])).
Proof.
  destruct payload as [|k [|d rest]].
  - split; [eexists; reflexivity|]. split; [reflexivity|simpl; lia].
  - split; [eexists; reflexivity|]. split; [reflexivity|simpl; lia].
  - unfold Bar.handle_request.
    change 1024%nat with (S (S 1022)). rewrite !recv_cons.
    unfold Bar.decode. simpl.
    split; [|split].
    + destruct (get_server_unknown draw servers (Bar.Int (ord k)) (ord d) eq_refl)
        as [e ->].
      eexists; reflexivity.
    + lia.
    + intros _ Hdraw.
      rewrite (get_server_rejects draw servers (Bar.Int (ord k)) (ord d)
                 eq_refl Hdraw).
      reflexivity.
Qed.

Lemma python3_rejects_every_request_witness :
  Bar.handle_request Bar.Python3 (3, 8)%nat (RecvReturns "ok") "V5"
    (Bar.Server.init <$> [KindV; KindV; KindV; KindV; KindV; KindV;
                          KindM; KindM; KindM; KindM])
  = (Raise ValueError,
     Bar.Server.init <$> [KindV; KindV; KindV; KindV; KindV; KindV;
                          KindM; KindM; KindM; KindM], [], []).
Proof.
  apply (proj2 (proj2 (python3_rejects_every_request (3, 8)%nat
                         (RecvReturns "ok") "V5" _))).
  - simpl. lia.
  - unfold Bar.valid_draw. simpl. lia.
Defined.

(** The server [__get_server] returns is in the pool. *)
Lemma get_server_in_pool (draw : nat * nat) (servers : list Bar.Server.t)
    (ty : Bar.value) (len : Z) (i : nat) :
  Bar.get_server draw servers ty len = Ok i -> is_Some (servers !! i).
Proof.
  unfold Bar.get_server.
  destruct (Bar.sample (length servers) draw) as [d|]; simpl; [|discriminate].
  unfold Bar.servers_index.
  destruct (servers !! d.1) as [s1|] eqn:H1; simpl; [|discriminate].
  destruct (servers !! d.2) as [s2|] eqn:H2; simpl; [|discriminate].
  destruct (Bar.Server.server_cost s1 ty len true); simpl; [|discriminate].
  destruct (Bar.Server.server_cost s2 ty len true); simpl; [|discriminate].
  destruct (_ <? _); intros H; injection H as <-; eauto.
Qed.

(** The decoding of line 66 under Python 2, on a payload of at least
    two bytes whose second is a digit. *)
Lemma decode_python2 (k d : ascii) (rest : bytes) :
  is_digit d = true ->
  Bar.decode Bar.Python2 (recv 1024 (String k (String d rest)))
  = Ok (Bar.Str (String k ""), ord d - 48).
Proof.
  intros Hd. change 1024%nat with (S (S 1022)). rewrite !recv_cons.
  unfold Bar.decode, int_of_chr. simpl. rewrite Hd. reflexivity.
Qed.

(** X14.  Under Python 2, a request that begins with a known kind tag
    and a digit, on a pool of at least two servers, is served whenever
    the backend replies: the handler returns, the first two bytes of the
    payload are what is written to the chosen backend, the reply (even an
    empty one) is sent to the client before the connection is closed,
    and every server is as it was before the request. *)
Theorem python2_request_is_served (k d : ascii) (rest response : bytes)
    (draw : nat * nat) (servers : list Bar.Server.t) :
  known_kind k = true ->
  is_digit d = true ->
  (2 <= length servers)%nat ->
  Bar.valid_draw (length servers) draw ->
  Bar.handle_request Bar.Python2 draw (RecvReturns response)
    (String k (String d rest)) servers
  = (Ok tt, servers, [String k (String d "")],
     [ClientSend response; ClientClose]).
Proof.
  intros Hk Hd Hlen (H1 & H2 & Hne).
  unfold Bar.handle_request. rewrite (decode_python2 k d rest Hd).
  rewrite <- known_type_str in Hk.
  destruct (lookup_lt_is_Some_2 servers draw.1 H1) as [s1 Hs1].
  destruct (lookup_lt_is_Some_2 servers draw.2 H2) as [s2 Hs2].
  destruct (Bar.get_server draw servers (Bar.Str (String k "")) (ord d - 48))
    as [i|e] eqn:Hget.
  - destruct (get_server_in_pool _ _ _ _ _ Hget) as [s Hs]. rewrite Hs.
    unfold Bar.Server.request.
    destruct (server_cost_known s (Bar.Str (String k "")) (ord d - 48) false Hk)
      as (c & -> & _).
    unfold Bar.Server.encode. simpl. rewrite (str_of_digit d Hd). simpl.
    replace (Bar.Server.release c (Bar.Server.reserve c s)) with s.
    + rewrite (list_insert_id servers i s Hs). reflexivity.
    + destruct s as [ty cc]. unfold Bar.Server.release, Bar.Server.reserve.
      simpl. f_equal. lia.
  - exfalso. revert Hget. unfold Bar.get_server, Bar.sample.
    replace (length servers <? 2)%nat with false
      by (symmetry; apply Nat.ltb_ge; exact Hlen).
    simpl. unfold Bar.servers_index. rewrite Hs1, Hs2. simpl.
    destruct (server_cost_known s1 (Bar.Str (String k "")) (ord d - 48) true Hk)
      as (c1 & _ & ->).
    destruct (server_cost_known s2 (Bar.Str (String k "")) (ord d - 48) true Hk)
      as (c2 & _ & ->).
    simpl. destruct (_ <? _); discriminate.
Qed.

Lemma python2_request_is_served_witness :
  Bar.handle_request Bar.Python2 (1, 0)%nat (RecvReturns "") "M37"
    [Bar.Server.Build KindV 4; Bar.Server.Build KindM 9]
  = (Ok tt, [Bar.Server.Build KindV 4; Bar.Server.Build KindM 9],
     ["M3"%string], [ClientSend ""; ClientClose]).
Proof.
  apply python2_request_is_served.
  - reflexivity.
  - reflexivity.
  - simpl. lia.
  - unfold Bar.valid_draw. simpl. lia.
Defined.

(** X15.  Under Python 2, when the forward of such a request fails, the
    handler raises OSError and writes nothing to the client; the server
    that was chosen keeps the cost of the job in [current_cost], and
    every other server, and the size of the pool, are as they were. *)
Theorem python2_failed_forward_marks_one_server (k d : ascii) (rest : bytes)
    (io : backend_io) (draw : nat * nat) (servers : list Bar.Server.t) :
  known_kind k = true ->
  is_digit d = true ->
  (2 <= length servers)%nat ->
  Bar.valid_draw (length servers) draw ->
  io_raises io ->
  exists i s c sent,
    Bar.get_server draw servers (Bar.Str (String k "")) (ord d - 48) = Ok i /\
    servers !! i = Some s /\
    Bar.Server.server_cost s (Bar.Str (String k "")) (ord d - 48) false = Ok c /\
    Bar.handle_request Bar.Python2 draw io (String k (String d rest)) servers
    = (Raise OSError,
       <[i := Bar.Server.Build (Bar.Server.type s) (Bar.Server.current_cost s + c)]>
         servers,
       sent, []) /\
    (forall servers',
        servers' = (Bar.handle_request Bar.Python2 draw io
                      (String k (String d rest)) servers).1.1.2 ->
        length servers' = length servers /\
        forall i', i' <> i -> servers' !! i' = servers !! i').
Proof.
  intros Hk Hd Hlen (H1 & H2 & Hne) Hio.
  rewrite <- known_type_str in Hk.
  destruct (lookup_lt_is_Some_2 servers draw.1 H1) as [s1 Hs1].
  destruct (lookup_lt_is_Some_2 servers draw.2 H2) as [s2 Hs2].
  assert (Hget : exists i,
             Bar.get_server draw servers (Bar.Str (String k "")) (ord d - 48)
             = Ok i).
  { unfold Bar.get_server, Bar.sample.
    replace (length servers <? 2)%nat with false
      by (symmetry; apply Nat.ltb_ge; exact Hlen).
    simpl. unfold Bar.servers_index. rewrite Hs1, Hs2. simpl.
    destruct (server_cost_known s1 (Bar.Str (String k "")) (ord d - 48) true Hk)
      as (c1 & _ & ->).
    destruct (server_cost_known s2 (Bar.Str (String k "")) (ord d - 48) true Hk)
      as (c2 & _ & ->).
    simpl. destruct (_ <? _); eexists; reflexivity. }
  destruct Hget as [i Hget].
  destruct (get_server_in_pool _ _ _ _ _ Hget) as [s Hs].
  destruct (server_cost_known s (Bar.Str (String k "")) (ord d - 48) false Hk)
    as (c & Hc & _).
  assert (Hcall : exists sent,
             Bar.handle_request Bar.Python2 draw io (String k (String d rest))
               servers
             = (Raise OSError,
                <[i := Bar.Server.Build (Bar.Server.type s)
                         (Bar.Server.current_cost s + c)]> servers,
                sent, [])).
  { unfold Bar.handle_request. rewrite (decode_python2 k d rest Hd).
    rewrite Hget, Hs. unfold Bar.Server.request. rewrite Hc.
    destruct Hio as [-> | ->]; eexists; reflexivity. }
  destruct Hcall as [sent Hcall].
  exists i, s, c, sent. repeat split; auto.
  - subst servers'. rewrite Hcall. simpl. apply length_insert.
  - intros i' Hi'. subst servers'. rewrite Hcall. simpl.
    apply list_lookup_insert_ne. congruence.
Qed.

Lemma python2_failed_forward_marks_one_server_witness :
  exists sent,
    Bar.handle_request Bar.Python2 (0, 1)%nat RecvRaises "V5"
      [Bar.Server.Build KindV 4; Bar.Server.Build KindV 2]
    = (Raise OSError,
       [Bar.Server.Build KindV 4; Bar.Server.Build KindV 7], sent, []).
Proof.
  destruct (python2_failed_forward_marks_one_server "V" "5" "" RecvRaises
              (0, 1)%nat [Bar.Server.Build KindV 4; Bar.Server.Build KindV 2]
              eq_refl eq_refl ltac:(simpl; lia)
              ltac:(unfold Bar.valid_draw; simpl; lia)
              ltac:(right; reflexivity))
    as (i & s & c & sent & Hget & Hs & Hc & Hcall & _).
  vm_compute in Hget. injection Hget as <-.
  simpl in Hs. injection Hs as <-.
  vm_compute in Hc. injection Hc as <-.
  exists sent. exact Hcall.
Defined.

(** ** Serving connections one after another *)

(** What one handler can do to a server: it keeps its type, and its
    [current_cost] does not go down. *)
Lemma handle_request_pool_step (v : Bar.py_version) (draw : nat * nat)
    (io : backend_io) (payload : bytes) (servers : list Bar.Server.t) :
  Forall2 (fun s s' => Bar.Server.type s' = Bar.Server.type s /\
                       Bar.Server.current_cost s <= Bar.Server.current_cost s')
          servers (Bar.handle_request v draw io payload servers).1.1.2 /\
  (forall response,
      io = RecvReturns response ->
      (Bar.handle_request v draw io payload servers).1.1.2 = servers).
Proof.
  assert (Hrefl : forall l : list Bar.Server.t,
             Forall2 (fun s s' => Bar.Server.type s' = Bar.Server.type s /\
                                  Bar.Server.current_cost s
                                  <= Bar.Server.current_cost s') l l).
  { induction l; constructor; auto. split; [reflexivity|lia]. }
  unfold Bar.handle_request.
  destruct (Bar.decode v (recv 1024 payload)) as [[ty len]|e] eqn:Hdec;
    [|split; [apply Hrefl|reflexivity]].
  apply decode_length_nonneg in Hdec.
  destruct (Bar.get_server draw servers ty len) as [i|e];
    [|split; [apply Hrefl|reflexivity]].
  destruct (servers !! i) as [s|] eqn:Hi; [|split; [apply Hrefl|reflexivity]].
  unfold Bar.Server.request.
  destruct (Bar.Server.server_cost s ty len false) as [c|e] eqn:Hc.
  - pose proof (server_cost_nonneg s ty len c Hdec Hc) as Hpos.
    assert (Hback : Bar.Server.release c (Bar.Server.reserve c s) = s).
    { destruct s as [t cc]. unfold Bar.Server.release, Bar.Server.reserve.
      simpl. f_equal. lia. }
    assert (Hstuck : Forall2
              (fun s s' => Bar.Server.type s' = Bar.Server.type s /\
                           Bar.Server.current_cost s
                           <= Bar.Server.current_cost s')
              servers (<[i := Bar.Server.reserve c s]> servers)).
    { rewrite <- (list_insert_id servers i s Hi) at 1.
      apply Forall2_insert; [apply Hrefl|]. simpl. split; [reflexivity|lia]. }
    destruct io as [| |response]; simpl.
    + split; [exact Hstuck|discriminate].
    + split; [exact Hstuck|discriminate].
    + rewrite Hback, (list_insert_id servers i s Hi).
      split; [apply Hrefl|reflexivity].
  - simpl. rewrite (list_insert_id servers i s Hi).
    split; [apply Hrefl|reflexivity].
Qed.

(** X16.  When the connections are handled one after another, the pool
    keeps its size, every server keeps its type, and no [current_cost]
    ever goes down: a failed forward leaves its cost behind for good.
    When the backend replies on every connection, the pool after the
    last handler is the pool before the first. *)
Theorem serve_never_lowers_cost (v : Bar.py_version)
    (connections : list BarS.connection) (servers : list Bar.Server.t) :
  length (BarS.serve v connections servers) = length servers /\
  (forall i s,
      servers !! i = Some s ->
      exists s',
        BarS.serve v connections servers !! i = Some s' /\
        Bar.Server.type s' = Bar.Server.type s /\
        Bar.Server.current_cost s <= Bar.Server.current_cost s') /\
  (Forall (fun c : BarS.connection => exists response, c.1.2 = RecvReturns response)
          connections ->
   BarS.serve v connections servers = servers).
Proof.
  assert (Hall : Forall2
            (fun s s' => Bar.Server.type s' = Bar.Server.type s /\
                         Bar.Server.current_cost s <= Bar.Server.current_cost s')
            servers (BarS.serve v connections servers)).
  { revert servers. induction connections as [|[[draw io] payload] rest IH];
      intros servers; simpl.
    - induction servers; constructor; auto. split; [reflexivity|lia].
    - destruct (handle_request_pool_step v draw io payload servers) as [Hstep _].
      specialize (IH (Bar.handle_request v draw io payload servers).1.1.2).
      clear -Hstep IH.
      revert IH. generalize (BarS.serve v rest
                               (Bar.handle_request v draw io payload servers).1.1.2).
      revert Hstep. generalize (Bar.handle_request v draw io payload servers).1.1.2.
      intros mid Hstep final Hfinal. revert final Hfinal.
      induction Hstep as [|s m l1 l2 [Ht Hc] _ IH]; intros final Hfinal.
      + exact Hfinal.
      + inversion Hfinal as [|? s' ? l3 [Ht' Hc'] Hrest]; subst.
        constructor; [split; [congruence|lia]|]. apply IH, Hrest. }
  split; [|split].
  - symmetry. eapply Forall2_length, Hall.
  - intros i s Hs.
    destruct (Forall2_lookup_l _ _ _ _ _ Hall Hs) as (s' & Hs' & Ht & Hc).
    exists s'. auto.
  - clear Hall. revert servers.
    induction connections as [|[[draw io] payload] rest IH];
      intros servers Hio; simpl; [reflexivity|].
    inversion Hio as [|? ? [response Hresp] Hrest]; subst. simpl in Hresp.
    destruct (handle_request_pool_step v draw io payload servers) as [_ Hsame].
    rewrite (Hsame response Hresp). apply IH, Hrest.
Qed.

Lemma serve_never_lowers_cost_witness :
  BarS.serve Bar.Python2
    [((0, 1)%nat, RecvReturns "a", "V5"%string);
     ((1, 0)%nat, RecvReturns "", "M2"%string)]
    [Bar.Server.Build KindV 4; Bar.Server.Build KindM 0]
  = [Bar.Server.Build KindV 4; Bar.Server.Build KindM 0].
Proof.
  apply (proj2 (proj2 (serve_never_lowers_cost Bar.Python2
                         [((0, 1)%nat, RecvReturns "a", "V5"%string);
                          ((1, 0)%nat, RecvReturns "", "M2"%string)]
                         [Bar.Server.Build KindV 4; Bar.Server.Build KindM 0]))).
  repeat constructor; simpl; eauto.
Defined.

(** ** Building the pool of [load_balancer_bar.py] *)

(** X17.  The first loop of [run] builds the pool entry by entry.  When
    every entry has type V or M and its connection succeeds, the loop
    ends with one idle server per entry appended to [self.servers], in
    the order of the configuration.  At the first entry that fails, the
    loop raises (ValueError for a wrong type, checked before the
    connection; OSError for a failed connection) and [self.servers]
    holds the servers built before that entry. *)
Theorem run_connect_outcome (self_servers : list Bar.Server.t) :
  (forall servers,
      forallb entry_ok servers = true ->
      BarS.run_connect servers self_servers
      = (Ok tt,
         self_servers
         ++ ((fun entry => Bar.Server.init (kind_of entry.1)) <$> servers))) /\
  (forall good bad rest,
      forallb entry_ok good = true ->
      entry_ok bad = false ->
      BarS.run_connect (good ++ bad :: rest) self_servers
      = (Raise (if server_type_ok bad.1 then OSError else ValueError),
         self_servers
         ++ ((fun entry => Bar.Server.init (kind_of entry.1)) <$> good))).
Proof.
  assert (Hok : forall ty c,
             entry_ok (ty, c) = true ->
             BarS.Server_new ty c = Ok (Bar.Server.init (kind_of ty))).
  { intros ty c. unfold entry_ok, server_type_ok, BarS.Server_new, kind_of. simpl.
    intros H. apply andb_true_iff in H as [-> ->]. reflexivity. }
  split.
  - intros servers. revert self_servers.
    induction servers as [|[ty c] rest IH]; intros acc Hall; simpl.
    + rewrite app_nil_r. reflexivity.
    + simpl in Hall. apply andb_true_iff in Hall as [He Hrest].
      rewrite (Hok ty c He), (IH _ Hrest), <- app_assoc. reflexivity.
  - intros good. revert self_servers.
    induction good as [|[ty c] good IH]; intros acc bad rest Hall Hbad; simpl.
    + rewrite app_nil_r. destruct bad as [ty c].
      unfold entry_ok, server_type_ok in Hbad. simpl in Hbad.
      unfold BarS.Server_new, server_type_ok. simpl.
      destruct (Bar.eq_str ty "V" || Bar.eq_str ty "M"); simpl in *;
        [|reflexivity].
      subst c. reflexivity.
    + simpl in Hall. apply andb_true_iff in Hall as [He Hrest].
      rewrite (Hok ty c He), (IH _ bad rest Hrest Hbad), <- app_assoc.
      reflexivity.
Qed.

Lemma run_connect_outcome_witness :
  BarS.run_connect ((fun ty => (ty, true)) <$> BarS.main_servers) []
  = (Ok tt,
     Bar.Server.init <$> [KindV; KindV; KindV; KindV; KindV; KindV;
                          KindM; KindM; KindM; KindM]) /\
  BarS.run_connect [(Bar.Str "V", true); (Bar.Str "X", true); (Bar.Str "M", true)]
                   []
  = (Raise ValueError, [Bar.Server.init KindV]).
Proof.
  split.
  - apply (proj1 (run_connect_outcome [])). reflexivity.
  - apply (proj2 (run_connect_outcome [])
             [(Bar.Str "V", true)] (Bar.Str "X", true) [(Bar.Str "M", true)]);
      reflexivity.
Defined.

(** ** Encoding, then decoding *)



(** ** Selection and specialisation *)

(** [__get_server] on two servers of the pool, for an accepted type. *)
Lemma get_server_compares_totals (servers : list Bar.Server.t) (d : nat * nat)
    (ty : Bar.value) (len : Z) (s1 s2 : Bar.Server.t) :
  (2 <= length servers)%nat ->
  known_type ty = true ->
  servers !! d.1 = Some s1 -> servers !! d.2 = Some s2 ->
  Bar.get_server d servers ty len
  = Ok (if bar_total s1 ty len <? bar_total s2 ty len then d.1 else d.2).
Proof.
  intros Hlen Hty H1 H2. unfold Bar.get_server, Bar.sample, bar_total.
  replace (length servers <? 2)%nat with false
    by (symmetry; apply Nat.ltb_ge; exact Hlen).
  unfold Bar.servers_index. cbn -[Bar.Server.server_cost].
  rewrite H1, H2. cbn -[Bar.Server.server_cost].
  destruct (server_cost_known s1 ty len true Hty) as (k1 & _ & ->).
  destruct (server_cost_known s2 ty len true Hty) as (k2 & _ & ->).
  cbn -[Bar.Server.server_cost]. destruct (_ <? _); reflexivity.
Qed.

(** X19.  Between a video server and a music server with the same
    [current_cost], [__get_server] follows the specialisation, in
    whichever order the two are drawn: a video or priority request of
    positive length goes to the video server, a music request of
    positive length to the music server. *)
Theorem equal_load_follows_specialisation (servers : list Bar.Server.t)
    (i_video i_music : nat) (video music : Bar.Server.t)
    (request_type : Bar.value) (request_length : Z) :
  (2 <= length servers)%nat ->
  servers !! i_video = Some video ->
  servers !! i_music = Some music ->
  Bar.Server.type video = KindV ->
  Bar.Server.type music = KindM ->
  Bar.Server.current_cost video = Bar.Server.current_cost music ->
  0 < request_length ->
  known_type request_type = true ->
  let chosen := if Bar.eq_str request_type "M" then i_music else i_video in
  Bar.get_server (i_video, i_music) servers request_type request_length
  = Ok chosen /\
  Bar.get_server (i_music, i_video) servers request_type request_length
  = Ok chosen.
Proof.
  intros Hlen Hv Hm Htv Htm Hcost Hpos Hty chosen. subst chosen.
  rewrite (get_server_compares_totals servers (i_video, i_music) request_type
             request_length video music Hlen Hty Hv Hm).
  rewrite (get_server_compares_totals servers (i_music, i_video) request_type
             request_length music video Hlen Hty Hm Hv).
  unfold bar_total, Bar.Server.server_cost. unfold known_type in Hty.
  rewrite Hty, Htv, Htm, Hcost. simpl.
  destruct (Bar.eq_str request_type "M") eqn:HM.
  - assert (HVP : Bar.eq_str request_type "V" || Bar.eq_str request_type "P"
                  = false).
    { destruct request_type as [n|s]; simpl in *; [discriminate|].
      apply String.eqb_eq in HM. subst s. reflexivity. }
    rewrite HVP. simpl.
    destruct (Z.ltb_spec (Bar.Server.current_cost music + 2 * request_length)
                         (Bar.Server.current_cost music + 1 * request_length));
      [lia|].
    destruct (Z.ltb_spec (Bar.Server.current_cost music + 1 * request_length)
                         (Bar.Server.current_cost music + 2 * request_length));
      [|lia].
    split; reflexivity.
  - rewrite orb_false_r in Hty. rewrite Hty. simpl.
    destruct (Bar.eq_str request_type "P");
      repeat match goal with
             | |- context [?a <? ?b] => destruct (Z.ltb_spec a b); try lia
             end;
      split; reflexivity.
Qed.

Lemma equal_load_follows_specialisation_witness :
  Bar.get_server (1, 0)%nat
    [Bar.Server.Build KindV 3; Bar.Server.Build KindM 3] (Bar.Str "P") 4
  = Ok 0%nat.
Proof.
  apply (proj2 (equal_load_follows_specialisation
                  [Bar.Server.Build KindV 3; Bar.Server.Build KindM 3]
                  0 1 (Bar.Server.Build KindV 3) (Bar.Server.Build KindM 3)
                  (Bar.Str "P") 4
                  ltac:(simpl; lia) eq_refl eq_refl eq_refl eq_refl eq_refl
                  ltac:(lia) eq_refl)).
Defined.

(** X20.  Line 120 after the selection.  The position the selection
    returns is a position of the pool, so the forward never raises
    IndexError; the pool keeps its size, the chosen server becomes what
    [send_and_recv] makes of it, and every other server is as it was. *)
Theorem forward_after_select (clock : nat -> Q) (j : LB.Job.t)
    (servers : list LB.Server.t) (i : nat) (best_cost : Q)
    (now1 now2 : Q) (io : backend_io) (msg : bytes) :
  LB.select clock j servers = (Some i, best_cost) ->
  exists s,
    servers !! i = Some s /\
    (LB.forward now1 now2 io msg servers i best_cost).1.1
    = (LB.Server.send_and_recv now1 now2 io msg best_cost s).1.1 /\
    (LB.forward now1 now2 io msg servers i best_cost).1.1 <> Raise IndexError /\
    length (LB.forward now1 now2 io msg servers i best_cost).1.2
    = length servers /\
    (LB.forward now1 now2 io msg servers i best_cost).1.2 !! i
    = Some (LB.Server.send_and_recv now1 now2 io msg best_cost s).1.2 /\
    (forall k, k <> i ->
               (LB.forward now1 now2 io msg servers i best_cost).1.2 !! k
               = servers !! k).
Proof.
  intros Hsel.
  destruct (best_cost_of_busy_server clock j servers i best_cost Hsel)
    as (s & Hs & _).
  exists s. split; [exact Hs|].
  unfold LB.forward. rewrite Hs.
  assert (Hexn : (LB.Server.send_and_recv now1 now2 io msg best_cost s).1.1
                 <> Raise IndexError).
  { unfold LB.Server.send_and_recv.
    destruct io as [| |res]; [| |destruct (res =? "")%string]; discriminate. }
  destruct (LB.Server.send_and_recv now1 now2 io msg best_cost s)
    as [[r s'] sent].
  simpl in *. split; [reflexivity|]. split; [exact Hexn|].
  split; [apply length_insert|]. split.
  - apply list_lookup_insert_eq. eapply lookup_lt_Some, Hs.
  - intros k Hk. apply list_lookup_insert_ne. congruence.
Qed.

Lemma forward_after_select_witness :
  exists s,
    busy_pool !! 0%nat = Some s /\
    length (LB.forward 100 101 (RecvReturns "ok") "V5" busy_pool 0 14).1.2
    = length busy_pool.
Proof.
  destruct (forward_after_select (fun _ => 100%Q) (LB.Job.Build "V" 5)
              busy_pool 0 14 100 101 (RecvReturns "ok") "V5" eq_refl)
    as (s & Hs & _ & _ & Hlen & _).
  exists s. split; [exact Hs|exact Hlen].
Defined.
